(** * ZebraCrossing: a fixed-window rate limiter for Hono over Deno KV

    A shallow embedding of [src/main.ts] (the [ZebraCrossing] middleware
    factory) together with the part of the JavaScript value semantics the
    middleware relies on, followed by the properties of the rate limiter.

    Layout:
    - [Js]       : JavaScript values, the coercions the middleware performs
                   implicitly (ToBoolean, ToNumber, property reads), and the
                   [Date] operations used to print the reset time;
    - [DenoKv]   : the key-value store ([kv.get] / [kv.set]);
    - [Hono]     : the request context and the response the middleware builds;
    - the middleware itself and the run of a sequence of calls, served one
      at a time (the interleaving of concurrent calls at the [await]s on the
      store is not modelled), first with store operations that succeed, then
      with store operations that may reject;
    - the properties, C1 to C10. *)

From stdpp Require Import gmap strings list fin_maps.

Open Scope Z_scope.

(** ** JavaScript values *)

Module Js.

(** Numbers.  Every number the middleware handles is a millisecond
    timestamp, a duration or a request count, so the finite numbers are the
    integer-valued doubles; [NaN] is kept because it is what the coercion of
    [undefined] produces and what invalid dates carry.  Fractions and the
    infinities (sums beyond 1.8e308) are outside the model. *)
Inductive Number :=
| Int (z : Z)
| NaN.

(** Up to 2^53 every integer is a double. *)
Definition two53 : Z := 9007199254740992.

(** The double nearest to an integer, ties to the even significand: beyond
    2^53 the doubles between 2^e and 2^(e+1) are the multiples of
    2^(e-52). *)
Definition round (z : Z) : Z :=
  let a := Z.abs z in
  if a <=? two53 then z
  else
    let ulp := 2 ^ (Z.log2 a - 52) in
    let q := a / ulp in
    let r := a mod ulp in
    let half := ulp / 2 in
    let q' := if r <? half then q
              else if half <? r then q + 1
              else if Z.even q then q else q + 1 in
    Z.sgn z * (q' * ulp).

(** The values that can sit in a Deno KV entry and that the middleware can
    tell apart: primitives and plain objects (own properties in insertion
    order).  Strings are left out as entry values: coercing them to numbers
    needs the numeric-literal grammar, which nothing below depends on.
    BigInts are left out as well (with a BigInt count the subtraction of
    line 80 throws a TypeError). *)
#[warnings="-register-all"]
Inductive Value :=
| Undefined
| Null
| Bool (b : bool)
| Num (n : Number)
| Object (props : list (string * Value)).

(** How a call completes: with a value, or by throwing.  [StoreError]
    stands for whatever a rejected store operation throws. *)
Inductive Error :=
| RangeError (message : string)
| StoreError (message : string).

Inductive Completion (A : Type) :=
| Normal (a : A)
| Throw (e : Error).
Arguments Normal {A} a.
Arguments Throw {A} e.

(** ToBoolean, as applied by [if (record.value)]. *)
Definition truthy (v : Value) : bool :=
  match v with
  | Undefined | Null => false
  | Bool b => b
  | Num (Int z) => negb (z =? 0)
  | Num NaN => false
  | Object _ => true
  end.

Fixpoint own_property (props : list (string * Value)) (name : string) : Value :=
  match props with
  | [] => Undefined
  | (k, v) :: rest => if String.eqb k name then v else own_property rest name
  end.

(** [v.name] for the two names the middleware reads, [hits] and
    [expiresAt]; no built-in prototype defines either, so the read yields
    the own property of an object and [undefined] on a boolean or a number.
    The read is only ever performed on a truthy value, hence never on
    [undefined] or [null] (where it would throw). *)
Definition get (v : Value) (name : string) : Value :=
  match v with
  | Object props => own_property props name
  | _ => Undefined
  end.

(** ToNumber.  A plain object converts through its default string form,
    which is not a numeric literal. *)
Definition to_number (v : Value) : Number :=
  match v with
  | Undefined => NaN
  | Null => Int 0
  | Bool b => Int (if b then 1 else 0)
  | Num n => n
  | Object _ => NaN
  end.

(** [a > b] on numbers: false as soon as one side is [NaN]. *)
Definition gt (a b : Number) : bool :=
  match a, b with
  | Int x, Int y => y <? x
  | _, _ => false
  end.

(** [a + b] and [a - b]: the exact result, rounded to a double. *)
Definition add (a b : Number) : Number :=
  match a, b with
  | Int x, Int y => Int (round (x + y))
  | _, _ => NaN
  end.

Definition sub (a b : Number) : Number :=
  match a, b with
  | Int x, Int y => Int (round (x - y))
  | _, _ => NaN
  end.

(** [x++] stores ToNumber(x) + 1 back into x. *)
Definition incr (v : Value) : Number := add (to_number v) (Int 1).

(** Strings the middleware produces, kept in the form they are built from:
    the decimal form of a number, a string literal, or the ISO-8601 form of
    a valid time value. *)
Inductive Text :=
| NumberToString (n : Number)
| Literal (s : string)
| IsoString (t : Z).

(** Dates.  A time value is valid within 8.64e15 ms of the epoch. *)
Definition max_time_value : Z := 8640000000000000.

Definition valid_time (t : Z) : Prop := Z.abs t <= max_time_value.

Definition TimeClip (n : Number) : Number :=
  match n with
  | Int t => if Z.abs t <=? max_time_value then Int t else NaN
  | NaN => NaN
  end.

(** [new Date(v)]: the time value of the date built from one argument. *)
Definition new_Date (v : Value) : Number := TimeClip (to_number v).

(** [Date.prototype.toISOString] throws a RangeError on an invalid date. *)
Definition toISOString (tv : Number) : Completion Text :=
  match tv with
  | Int t => Normal (IsoString t)
  | NaN => Throw (RangeError "Invalid time value")
  end.

(** [a || b] on [string | undefined]: the empty string is falsy too. *)
Definition or_else (a b : option string) : option string :=
  match a with
  | Some s => if String.eqb s "" then b else a
  | None => b
  end.

(** [${x}] inside a template literal, for [string | undefined]. *)
Definition interpolate (x : option string) : string :=
  match x with
  | Some s => s
  | None => "undefined"
  end.

End Js.

(** ** The Deno KV store *)

Module DenoKv.

(** A key is an array of key parts; the middleware only builds keys with a
    single string part. *)
Abbreviation Key := (list string).

Abbreviation Kv := (gmap (list string) Js.Value).

(** The operations issued on the store handle, in program order. *)
Inductive Op :=
| Get (key : Key)
| Set_ (key : Key) (value : Js.Value) (expireIn : option Z).

(** [(await kv.get(key)).value]: [null] when the key has no entry. *)
Definition get (kv : Kv) (key : Key) : Js.Value :=
  default Js.Null (kv !! key).

(** [await kv.set(key, value)], without an [expireIn] option: the entry is
    replaced and stays until overwritten. *)
Definition set (kv : Kv) (key : Key) (value : Js.Value) : Kv :=
  <[key := value]> kv.

Definition is_get (o : Op) : bool :=
  match o with Get _ => true | Set_ _ _ _ => false end.

Definition is_set (o : Op) : bool :=
  match o with Get _ => false | Set_ _ _ _ => true end.

Definition op_key (o : Op) : Key :=
  match o with Get k => k | Set_ k _ _ => k end.

(** The three awaited store operations of a call, [Deno.openKv()],
    [kv.get] and [kv.set], may each reject: a field says with what, [None]
    standing for an operation that succeeds.  A rejected [kv.set] is taken
    to have committed nothing. *)
Record Faults := {
  on_openKv : option Js.Error;
  on_get : option Js.Error;
  on_set : option Js.Error
}.

Definition healthy : Faults :=
  {| on_openKv := None; on_get := None; on_set := None |}.

(** [e] is what one of the store operations rejects with. *)
Definition rejectsWith (f : Faults) (e : Js.Error) : Prop :=
  on_openKv f = Some e \/ on_get f = Some e \/ on_set f = Some e.

End DenoKv.

(** ** The Hono context *)

Module Hono.

(** What the middleware reads from the context: request headers and the
    remote address reported by [getConnInfo]. *)
Record Context := {
  req_headers : gmap string string;
  remote_address : option string
}.

Definition header (c : Context) (name : string) : option string :=
  req_headers c !! name.

Abbreviation Headers := (gmap string Js.Text).

(** What the middleware does with the request: hand it to the downstream
    handler ([await next()]) or answer it itself ([return c.text(..)]).
    Either way it carries the response headers set so far. *)
Inductive Response :=
| Next (headers : Headers)
| TextResponse (body : string) (status : Z) (headers : Headers).

End Hono.

(** ** The middleware *)

(** The options object handed to [ZebraCrossing].  The factory destructures
    [windowMs] and [maxRequests]; [more] stands for whatever further
    properties the caller's object carries, such as the
    [resetExpiryOnChange] flag of the [Options] type of [src/types.ts]. *)
Record ZebraOptions := {
  windowMs : Z;
  maxRequests : Z;
  more : list (string * Js.Value)
}.

(** The result of one middleware call: the store afterwards, the store
    operations issued, and how the call completed. *)
Record Outcome := {
  kv_after : DenoKv.Kv;
  ops : list DenoKv.Op;
  completion : Js.Completion Hono.Response
}.

(** Line 40: [x-real-ip || x-forwarded-for || remote.address]. *)
Definition clientIp (c : Hono.Context) : option string :=
  Js.or_else (Js.or_else (Hono.header c "x-real-ip")
                         (Hono.header c "x-forwarded-for"))
             (Hono.remote_address c).

(** The client key as it enters the storage key. *)
Definition clientKey (c : Hono.Context) : string := Js.interpolate (clientIp c).

Definition keyPrefix : string := "rate-limit:".

(** Line 42: [[`rate-limit:${clientIp}`]]. *)
Definition storageKey (c : Hono.Context) : DenoKv.Key :=
  [keyPrefix +:+ clientKey c].

(** Lines 49-61: the window the call counts in, as the pair
    [(hits, expiresAt)] before the increment. *)
Definition currentWindow (windowMs : Z) (value : Js.Value) (currentTime : Z)
  : Js.Value * Js.Value :=
  let fresh :=
    (Js.Num (Js.Int 0), Js.Num (Js.add (Js.Int currentTime) (Js.Int windowMs))) in
  if Js.truthy value then
    let hits := Js.get value "hits" in
    let expiresAt := Js.get value "expiresAt" in
    if Js.gt (Js.Int currentTime) (Js.to_number expiresAt) then fresh
    else (hits, expiresAt)
  else fresh.

(** Lines 49-64: the same pair once the call has counted itself
    ([hits++]). *)
Definition countHit (windowMs : Z) (value : Js.Value) (currentTime : Z)
  : Js.Number * Js.Value :=
  let '(hits, expiresAt) := currentWindow windowMs value currentTime in
  (Js.incr hits, expiresAt).

(** The object literal [{ hits, expiresAt }] of line 76. *)
Definition windowState (hits : Js.Number) (expiresAt : Js.Value) : Js.Value :=
  Js.Object [("hits", Js.Num hits); ("expiresAt", expiresAt)].

(** The three [c.res.headers.set] calls of lines 69-71 and 79-81. *)
Definition rateLimitHeaders (limit : Z) (remaining reset : Js.Text) : Hono.Headers :=
  <["X-RateLimit-Reset" := reset]>
    (<["X-RateLimit-Remaining" := remaining]>
       (<["X-RateLimit-Limit" := Js.NumberToString (Js.Int limit)]> ∅)).

(** Lines 32-85, for a call that reads the clock at [currentTime] and whose
    store operations all succeed.  The store handle opened on line 34 is the
    store passed in. *)
Definition middleware (options : ZebraOptions) (c : Hono.Context)
    (currentTime : Z) (kv : DenoKv.Kv) : Outcome :=
  let key := storageKey c in
  let value := DenoKv.get kv key in
  let '(hits, expiresAt) := countHit (windowMs options) value currentTime in
  if Js.gt hits (Js.Int (maxRequests options)) then
    match Js.toISOString (Js.new_Date expiresAt) with
    | Js.Throw e =>
        {| kv_after := kv; ops := [DenoKv.Get key]; completion := Js.Throw e |}
    | Js.Normal resetTime =>
        {| kv_after := kv;
           ops := [DenoKv.Get key];
           completion :=
             Js.Normal (Hono.TextResponse "Too Many Requests" 429
               (rateLimitHeaders (maxRequests options) (Js.Literal "0") resetTime)) |}
    end
  else
    let stored := windowState hits expiresAt in
    let kv' := DenoKv.set kv key stored in
    let trace := [DenoKv.Get key; DenoKv.Set_ key stored None] in
    match Js.toISOString (Js.new_Date expiresAt) with
    | Js.Throw e =>
        {| kv_after := kv'; ops := trace; completion := Js.Throw e |}
    | Js.Normal resetTime =>
        {| kv_after := kv';
           ops := trace;
           completion :=
             Js.Normal (Hono.Next
               (rateLimitHeaders (maxRequests options)
                  (Js.NumberToString (Js.sub (Js.Int (maxRequests options)) hits))
                  resetTime)) |}
    end.

(** Lines 32-85 again, with the store operations rejecting as [faults]
    says: a rejected [await] throws out of the middleware there and then. *)
Definition middlewareWith (faults : DenoKv.Faults) (options : ZebraOptions)
    (c : Hono.Context) (currentTime : Z) (kv : DenoKv.Kv) : Outcome :=
  let key := storageKey c in
  match DenoKv.on_openKv faults with
  | Some e => {| kv_after := kv; ops := []; completion := Js.Throw e |}
  | None =>
      match DenoKv.on_get faults with
      | Some e =>
          {| kv_after := kv; ops := [DenoKv.Get key]; completion := Js.Throw e |}
      | None =>
          let value := DenoKv.get kv key in
          let '(hits, expiresAt) := countHit (windowMs options) value currentTime in
          if Js.gt hits (Js.Int (maxRequests options)) then
            middleware options c currentTime kv
          else
            match DenoKv.on_set faults with
            | Some e =>
                {| kv_after := kv;
                   ops := [DenoKv.Get key;
                           DenoKv.Set_ key (windowState hits expiresAt) None];
                   completion := Js.Throw e |}
            | None => middleware options c currentTime kv
            end
      end
  end.

(** Lines 29-31: the factory checks nothing and returns the middleware. *)
Definition ZebraCrossing (options : ZebraOptions)
  : Js.Completion (Hono.Context -> Z -> DenoKv.Kv -> Outcome) :=
  Js.Normal (middleware options).

(** A sequence of calls served one after the other, each given by its
    context and the clock reading of the call; outcomes are in call order. *)
Fixpoint serve (options : ZebraOptions) (calls : list (Hono.Context * Z))
    (kv : DenoKv.Kv) : DenoKv.Kv * list Outcome :=
  match calls with
  | [] => (kv, [])
  | (c, t) :: rest =>
      let o := middleware options c t kv in
      let '(kv', os) := serve options rest (kv_after o) in
      (kv', o :: os)
  end.

(** The same with store operations that may reject, each call coming with
    its own faults. *)
Fixpoint serveWith (options : ZebraOptions)
    (calls : list (Hono.Context * Z * DenoKv.Faults)) (kv : DenoKv.Kv)
  : DenoKv.Kv * list Outcome :=
  match calls with
  | [] => (kv, [])
  | (c, t, faults) :: rest =>
      let o := middlewareWith faults options c t kv in
      let '(kv', os) := serveWith options rest (kv_after o) in
      (kv', o :: os)
  end.

(** ** Vocabulary of the properties *)

(** The limit test of line 67 as a function of the call: [true] when the
    call takes the blocking branch. *)
Definition blocked (options : ZebraOptions) (c : Hono.Context)
    (currentTime : Z) (kv : DenoKv.Kv) : bool :=
  Js.gt (countHit (windowMs options) (DenoKv.get kv (storageKey c)) currentTime).1
        (Js.Int (maxRequests options)).

(** A value that reads as a window state [{hits, expiresAt}] with integer
    fields. *)
Definition isWindowState (v : Js.Value) (hits expiresAt : Z) : Prop :=
  Js.get v "hits" = Js.Num (Js.Int hits) /\
  Js.get v "expiresAt" = Js.Num (Js.Int expiresAt).

(** The response of an admitted call: downstream runs, with [remaining]
    requests left until [reset]. *)
Definition admittedWith (options : ZebraOptions) (remaining reset : Z)
  : Js.Completion Hono.Response :=
  Js.Normal (Hono.Next
    (rateLimitHeaders (maxRequests options)
       (Js.NumberToString (Js.Int remaining)) (Js.IsoString reset))).

(** The response of a rejected call: 429, nothing left, downstream not run. *)
Definition rejectedUntil (options : ZebraOptions) (reset : Z)
  : Js.Completion Hono.Response :=
  Js.Normal (Hono.TextResponse "Too Many Requests" 429
    (rateLimitHeaders (maxRequests options) (Js.Literal "0") (Js.IsoString reset))).

(** The same two responses read off the outcome header by header: handed
    downstream with the three rate-limit headers, or answered 429 with
    them. *)
Definition sentDownstream (o : Outcome) (limit remaining reset : Z) : Prop :=
  exists headers,
    completion o = Js.Normal (Hono.Next headers)
    /\ headers !! "X-RateLimit-Limit" = Some (Js.NumberToString (Js.Int limit))
    /\ headers !! "X-RateLimit-Remaining"
       = Some (Js.NumberToString (Js.Int remaining))
    /\ headers !! "X-RateLimit-Reset" = Some (Js.IsoString reset).

Definition answered429 (o : Outcome) (limit reset : Z) : Prop :=
  exists headers,
    completion o = Js.Normal (Hono.TextResponse "Too Many Requests" 429 headers)
    /\ headers !! "X-RateLimit-Limit" = Some (Js.NumberToString (Js.Int limit))
    /\ headers !! "X-RateLimit-Remaining" = Some (Js.Literal "0")
    /\ headers !! "X-RateLimit-Reset" = Some (Js.IsoString reset).

Definition admitted (o : Outcome) : Prop :=
  exists headers, completion o = Js.Normal (Hono.Next headers).

Definition rejected (o : Outcome) : Prop :=
  exists body status headers,
    completion o = Js.Normal (Hono.TextResponse body status headers).

(** Keys in the rate limiter's name space. *)
Definition rateLimitKey (k : DenoKv.Key) : Prop :=
  exists client : string, k = [keyPrefix +:+ client].

(** Every rate-limit entry is a window state whose count lies in
    [1, limit]. *)
Definition countsInRange (limit : Z) (kv : DenoKv.Kv) : Prop :=
  forall k v, rateLimitKey k -> kv !! k = Some v ->
    exists h e, isWindowState v h e /\ 1 <= h <= limit.

(** Every value the call writes is a window state whose count lies in
    [1, limit]. *)
Definition writesInRange (limit : Z) (o : Outcome) : Prop :=
  forall k v ttl, DenoKv.Set_ k v ttl ∈ ops o ->
    exists h e, v = windowState (Js.Int h) (Js.Num (Js.Int e)) /\ 1 <= h <= limit.

(** Whether the call handed the request to the downstream handler. *)
Definition isNext (o : Outcome) : bool :=
  match completion o with
  | Js.Normal (Hono.Next _) => true
  | _ => false
  end.

(** How many of the calls were handed downstream. *)
Definition admissions (os : list Outcome) : Z :=
  Z.of_nat (length (filter (fun o => isNext o = true) os)).

(** Every rate-limit entry is a window state whose expiry is a valid time
    value. *)
Definition wellFormed (kv : DenoKv.Kv) : Prop :=
  forall k v, rateLimitKey k -> kv !! k = Some v ->
    exists h e, isWindowState v h e /\ Js.valid_time e.

(** The response to the [i]-th further call inside a live window that
    holds [h] hits and ends at [e]. *)
Definition windowResponse (options : ZebraOptions) (h e : Z) (i : nat)
  : Js.Completion Hono.Response :=
  if h + Z.of_nat i <=? maxRequests options
  then admittedWith options (maxRequests options - (h + Z.of_nat i)) e
  else rejectedUntil options e.

(** The calls of a run that go to one storage key, and the responses
    those calls got in the run. *)
Definition callsOf (key : DenoKv.Key) (calls : list (Hono.Context * Z))
  : list (Hono.Context * Z) :=
  filter (fun call => storageKey call.1 = key) calls.

Definition responsesTo (key : DenoKv.Key) (calls : list (Hono.Context * Z))
    (os : list Outcome) : list (Js.Completion Hono.Response) :=
  (fun served => completion served.2)
    <$> filter (fun served => storageKey served.1.1 = key) (zip calls os).

(** ** Sample data *)

(** A client seen through a proxy, another one seen directly. *)
Definition alice : Hono.Context :=
  {| Hono.req_headers := {[ "x-real-ip" := "10.0.0.1" ]};
     Hono.remote_address := Some "127.0.0.1" |}.

Definition bob : Hono.Context :=
  {| Hono.req_headers := ∅; Hono.remote_address := Some "192.168.1.7" |}.

(** Two requests per minute. *)
Definition twoPerMinute : ZebraOptions :=
  {| windowMs := 60000; maxRequests := 2; more := [] |}.

(** The same limit, passed with the TTL flag of [src/types.ts] switched on. *)
Definition twoPerMinuteWithFlag : ZebraOptions :=
  {| windowMs := 60000; maxRequests := 2;
     more := [("resetExpiryOnChange", Js.Bool true)] |}.

(** Alice's window after two admitted calls at the start of the epoch. *)
Definition aliceFull : DenoKv.Kv :=
  {[ storageKey alice := windowState (Js.Int 2) (Js.Num (Js.Int 60000)) ]}.

(** A store whose entry for Alice is an object without the two fields. *)
Definition aliceCorrupt : DenoKv.Kv :=
  {[ storageKey alice := Js.Object [] ]}.

(** A configuration the specification calls invalid. *)
Definition zeroConfig : ZebraOptions :=
  {| windowMs := 0; maxRequests := 0; more := [] |}.

(** A store whose entry for Alice has an expiry but no count. *)
Definition aliceNoHits : DenoKv.Kv :=
  {[ storageKey alice := Js.Object [("expiresAt", Js.Num (Js.Int 60000))] ]}.

(** Alice behind another proxy address, same forwarded identity. *)
Definition aliceElsewhere : Hono.Context :=
  {| Hono.req_headers := {[ "x-real-ip" := "10.0.0.1" ]};
     Hono.remote_address := Some "203.0.113.9" |}.

(** A limit of 2^53 requests per minute. *)
Definition atTwo53 : ZebraOptions :=
  {| windowMs := 60000; maxRequests := 9007199254740992; more := [] |}.

(** A window far longer than the range of [Date]. *)
Definition hugeWindow : ZebraOptions :=
  {| windowMs := 9000000000000000; maxRequests := 2; more := [] |}.

(** A call whose [kv.get] rejects. *)
Definition kvUnreachable : DenoKv.Faults :=
  {| DenoKv.on_openKv := None;
     DenoKv.on_get := Some (Js.StoreError "unavailable");
     DenoKv.on_set := None |}.

(** ** Basic facts *)

(** *** Rounding *)

Lemma round_exact (z : Z) : Z.abs z <= Js.two53 -> Js.round z = z.
Proof.
  intros Hz. unfold Js.round. by destruct (Z.leb_spec (Z.abs z) Js.two53); [| lia].
Qed.

Lemma round_stalls : Js.round (Js.two53 + 1) = Js.two53.
Proof. reflexivity. Qed.

Lemma round_above (z : Z) : Js.two53 <= z -> Js.two53 <= Js.round z.
Proof.
  intros Hz. unfold Js.round.
  destruct (Z.leb_spec (Z.abs z) Js.two53) as [| Hbig]; [done |].
  unfold Js.two53 in *.
  assert (Hpos : 9007199254740992 < z) by lia.
  rewrite (Z.abs_eq z), (Z.sgn_pos z) by lia.
  set (k := Z.log2 z - 52).
  assert (Hlog : 53 <= Z.log2 z).
  { change 53 with (Z.log2 9007199254740992). apply Z.log2_le_mono. lia. }
  assert (Hk : 1 <= k) by (unfold k; lia).
  assert (Hulp : 0 < 2 ^ k) by (apply Z.pow_pos_nonneg; lia).
  assert (Hlow : 2 ^ 52 * 2 ^ k <= z).
  { rewrite <- Z.pow_add_r by lia. replace (52 + k) with (Z.log2 z) by (unfold k; lia).
    apply Z.log2_spec. lia. }
  assert (Hq : 2 ^ 52 <= z / 2 ^ k) by (apply Z.div_le_lower_bound; lia).
  assert (Htwo : 2 <= 2 ^ k).
  { change 2 with (2 ^ 1) at 1. apply Z.pow_le_mono_r; lia. }
  set (q := z / 2 ^ k) in *.
  assert (Hq' : q <=
                (if z mod 2 ^ k <? 2 ^ k / 2 then q
                 else if 2 ^ k / 2 <? z mod 2 ^ k then q + 1
                 else if Z.even q then q else q + 1)).
  { repeat case_match; lia. }
  change 9007199254740992 with (2 ^ 52 * 2). change (2 ^ 52) with 4503599627370496 in *.
  nia.
Qed.

Lemma round_pos (z : Z) : 1 <= z -> 1 <= Js.round z.
Proof.
  intros Hz. destruct (Z.le_gt_cases z Js.two53).
  - rewrite round_exact; lia.
  - pose proof (round_above z). unfold Js.two53 in *. lia.
Qed.

Lemma round_nonneg (z : Z) : 0 <= z -> 0 <= Js.round z.
Proof.
  intros Hz. destruct (Z.le_gt_cases z Js.two53).
  - rewrite round_exact; lia.
  - pose proof (round_above z). unfold Js.two53 in *. lia.
Qed.

Lemma valid_time_round (z : Z) : Js.valid_time z -> Js.round z = z.
Proof.
  unfold Js.valid_time, Js.max_time_value. intros Hz. apply round_exact.
  unfold Js.two53. lia.
Qed.

(** Counting one more, for a count between 0 and 2^53. *)
Lemma round_succ (c : Z) :
  0 <= c <= Js.two53 -> Js.round (c + 1) = Z.min (c + 1) Js.two53.
Proof.
  intros Hc. destruct (Z.eq_dec c Js.two53) as [-> | Hne].
  - rewrite round_stalls. unfold Js.two53. lia.
  - rewrite round_exact; unfold Js.two53 in *; lia.
Qed.

Example rounding_beyond_two53 :
  Js.round (Js.two53 + 2) = Js.two53 + 2
  /\ Js.round (Js.two53 + 3) = Js.two53 + 4
  /\ Js.round (Js.two53 + 5) = Js.two53 + 4
  /\ Js.round (- (Js.two53 + 1)) = - Js.two53
  /\ Js.round (2 ^ 54 + 6) = 2 ^ 54 + 8.
Proof. repeat split. Qed.

(** *** One call *)

Section Steps.

Context (options : ZebraOptions).

Let w := windowMs options.
Let limit := maxRequests options.

Lemma windowState_truthy v h e : isWindowState v h e -> Js.truthy v = true.
Proof. intros [Hh _]. destruct v; simpl in Hh; try discriminate; done. Qed.

Lemma new_Date_valid e :
  Js.valid_time e -> Js.new_Date (Js.Num (Js.Int e)) = Js.Int e.
Proof.
  unfold Js.valid_time, Js.new_Date. simpl. intros H.
  destruct (Z.leb_spec (Z.abs e) Js.max_time_value); [done | lia].
Qed.

Lemma countHit_falsy v t :
  Js.truthy v = false ->
  countHit w v t = (Js.Int 1, Js.Num (Js.Int (Js.round (t + w)))).
Proof. intros Hv. unfold countHit, currentWindow. by rewrite Hv. Qed.

Lemma countHit_expired v h e t :
  isWindowState v h e -> e < t ->
  countHit w v t = (Js.Int 1, Js.Num (Js.Int (Js.round (t + w)))).
Proof.
  intros Hv Hlt. unfold countHit, currentWindow.
  rewrite (windowState_truthy _ _ _ Hv). destruct Hv as [_ ->]. simpl Js.to_number.
  cbn [Js.gt]. destruct (Z.ltb_spec e t); [done | lia].
Qed.

Lemma countHit_live v h e t :
  isWindowState v h e -> t <= e ->
  countHit w v t = (Js.Int (Js.round (h + 1)), Js.Num (Js.Int e)).
Proof.
  intros Hv Hle. unfold countHit, currentWindow.
  rewrite (windowState_truthy _ _ _ Hv). destruct Hv as [-> ->]. simpl Js.to_number.
  cbn [Js.gt]. destruct (Z.ltb_spec e t); [lia | done].
Qed.

(** The two ways a call with integer count [n] and valid expiry [e] ends. *)
Lemma middleware_admits c t kv n e :
  countHit w (DenoKv.get kv (storageKey c)) t = (Js.Int n, Js.Num (Js.Int e)) ->
  n <= limit -> Js.valid_time e ->
  middleware options c t kv =
    {| kv_after := <[storageKey c := windowState (Js.Int n) (Js.Num (Js.Int e))]> kv;
       ops := [DenoKv.Get (storageKey c);
               DenoKv.Set_ (storageKey c)
                 (windowState (Js.Int n) (Js.Num (Js.Int e))) None];
       completion := admittedWith options (Js.round (limit - n)) e |}.
Proof.
  intros Hc Hn He. unfold middleware. fold w. rewrite Hc. cbn [Js.gt Js.sub].
  fold limit. destruct (Z.ltb_spec limit n); [lia |].
  by rewrite (new_Date_valid _ He).
Qed.

Lemma middleware_blocks c t kv n e :
  countHit w (DenoKv.get kv (storageKey c)) t = (Js.Int n, Js.Num (Js.Int e)) ->
  limit < n -> Js.valid_time e ->
  middleware options c t kv =
    {| kv_after := kv;
       ops := [DenoKv.Get (storageKey c)];
       completion := rejectedUntil options e |}.
Proof.
  intros Hc Hn He. unfold middleware. fold w. rewrite Hc. cbn [Js.gt].
  fold limit. destruct (Z.ltb_spec limit n); [| lia].
  by rewrite (new_Date_valid _ He).
Qed.

End Steps.

(** The three headers of a response. *)
Lemma rateLimitHeaders_lookup (limit : Z) (remaining reset : Js.Text) :
  rateLimitHeaders limit remaining reset !! "X-RateLimit-Limit"
    = Some (Js.NumberToString (Js.Int limit))
  /\ rateLimitHeaders limit remaining reset !! "X-RateLimit-Remaining" = Some remaining
  /\ rateLimitHeaders limit remaining reset !! "X-RateLimit-Reset" = Some reset.
Proof.
  unfold rateLimitHeaders. split; [| split].
  - rewrite !lookup_insert_ne by done. apply lookup_insert_eq.
  - rewrite lookup_insert_ne by done. apply lookup_insert_eq.
  - apply lookup_insert_eq.
Qed.

Lemma admittedWith_sentDownstream (options : ZebraOptions) (o : Outcome)
    (remaining reset : Z) :
  completion o = admittedWith options remaining reset ->
  sentDownstream o (maxRequests options) remaining reset.
Proof.
  intros Ho. eexists. split; [exact Ho |]. apply rateLimitHeaders_lookup.
Qed.

Lemma rejectedUntil_answered429 (options : ZebraOptions) (o : Outcome) (reset : Z) :
  completion o = rejectedUntil options reset ->
  answered429 o (maxRequests options) reset.
Proof.
  intros Ho. eexists. split; [exact Ho |]. apply rateLimitHeaders_lookup.
Qed.

(** With store operations that succeed, the fuller model is the middleware. *)
Lemma middlewareWith_healthy (options : ZebraOptions) (c : Hono.Context) (t : Z)
    (kv : DenoKv.Kv) :
  middlewareWith DenoKv.healthy options c t kv = middleware options c t kv.
Proof.
  unfold middlewareWith. simpl.
  destruct (countHit _ _ _) as [hits expiresAt]. by destruct (Js.gt _ _).
Qed.

(** ** The store entry of a client *)

Lemma storageKey_of_clientKey c c' :
  clientKey c' = clientKey c -> storageKey c' = storageKey c.
Proof. unfold storageKey. by intros ->. Qed.

Lemma storageKey_inj c c' :
  storageKey c' = storageKey c -> clientKey c' = clientKey c.
Proof. unfold storageKey, keyPrefix. intros [= H]. exact H. Qed.

Lemma get_present (kv : DenoKv.Kv) key v :
  kv !! key = Some v -> DenoKv.get kv key = v.
Proof. unfold DenoKv.get. by intros ->. Qed.

Lemma get_absent (kv : DenoKv.Kv) key :
  kv !! key = None -> DenoKv.get kv key = Js.Null.
Proof. unfold DenoKv.get. by intros ->. Qed.

Lemma windowState_is h e :
  isWindowState (windowState (Js.Int h) (Js.Num (Js.Int e))) h e.
Proof. by split. Qed.

(** ** Sequences of calls *)

Lemma serve_cons options c t rest kv :
  serve options ((c, t) :: rest) kv =
    ((serve options rest (kv_after (middleware options c t kv))).1,
     middleware options c t kv
       :: (serve options rest (kv_after (middleware options c t kv))).2).
Proof. simpl. by destruct (serve options rest _). Qed.

Lemma serve_length options calls kv :
  length (serve options calls kv).2 = length calls.
Proof.
  revert kv. induction calls as [| [c t] rest IH]; intros kv; [done |].
  rewrite serve_cons. simpl. by rewrite IH.
Qed.

Lemma two53_pos : 0 < Js.two53.
Proof. reflexivity. Qed.

Lemma serve_app (options : ZebraOptions) (first second : list (Hono.Context * Z))
    (kv : DenoKv.Kv) :
  serve options (first ++ second) kv =
    ((serve options second (serve options first kv).1).1,
     (serve options first kv).2 ++ (serve options second (serve options first kv).1).2).
Proof.
  revert kv. induction first as [| [c t] rest IH]; intros kv.
  - simpl. by destruct (serve options second kv).
  - rewrite <- app_comm_cons, !serve_cons, IH. done.
Qed.

Lemma admissions_cons (o : Outcome) (os : list Outcome) :
  admissions (o :: os) = (if isNext o then 1 else 0) + admissions os.
Proof.
  unfold admissions. destruct (isNext o) eqn:Ho.
  - rewrite filter_cons_True by done. simpl length. lia.
  - rewrite filter_cons_False by (rewrite Ho; discriminate). lia.
Qed.

Lemma admissions_app (os os' : list Outcome) :
  admissions (os ++ os') = admissions os + admissions os'.
Proof. unfold admissions. rewrite filter_app, length_app. lia. Qed.

(** Calls that stay inside the live window of their key while the number of
    calls counted stays within the limit are all handed downstream.  The
    stored count goes up by one per call until it reaches 2^53, where
    adding one no longer changes it. *)
Lemma serve_admitted (options : ZebraOptions) (key : DenoKv.Key) (e : Z)
    (calls : list (Hono.Context * Z)) :
  Js.valid_time e ->
  forall (kv : DenoKv.Kv) (v : Js.Value) (c : Z),
    kv !! key = Some v -> isWindowState v c e ->
    0 <= c <= Js.two53 ->
    Forall (fun call => storageKey call.1 = key /\ call.2 <= e) calls ->
    c + Z.of_nat (length calls) <= maxRequests options ->
    completion <$> (serve options calls kv).2 =
      (fun i : nat =>
         admittedWith options
           (Js.round (maxRequests options - Z.min (c + Z.of_nat i) Js.two53)) e)
        <$> seq 1 (length calls)
    /\ (exists v', (serve options calls kv).1 !! key = Some v'
         /\ isWindowState v' (Z.min (c + Z.of_nat (length calls)) Js.two53) e)
    /\ admissions (serve options calls kv).2 = Z.of_nat (length calls).
Proof.
  intros He. pose proof two53_pos as Htwo.
  induction calls as [| [c0 t] rest IH]; intros kv v c Hkv Hv Hc Hall Hlen.
  - simpl. split; [done |]. split; [| done].
    exists v. split; [done |].
    replace (Z.min (c + Z.of_nat 0) Js.two53) with c by lia. done.
  - apply Forall_cons in Hall as [[Hkey Ht] Hrest]. simpl in Hkey, Ht.
    rewrite serve_cons. cbn [fst snd length] in *. rewrite fmap_cons, admissions_cons.
    set (c' := Z.min (c + 1) Js.two53).
    assert (Hcount : countHit (windowMs options) (DenoKv.get kv (storageKey c0)) t
                     = (Js.Int c', Js.Num (Js.Int e))).
    { rewrite Hkey, (get_present _ _ _ Hkv), (countHit_live _ v c e) by done.
      by rewrite round_succ. }
    rewrite (middleware_admits options c0 t kv c' e Hcount) by (done || lia).
    cbn [kv_after completion]. rewrite Hkey.
    destruct (IH (<[key := windowState (Js.Int c') (Js.Num (Js.Int e))]> kv)
                 (windowState (Js.Int c') (Js.Num (Js.Int e))) c')
      as (Hcs & (v' & Hv' & Hst) & Hadm);
      [apply lookup_insert_eq | apply windowState_is | lia | done | lia |].
    subst c'. split; [| split].
    + cbn [seq fmap list_fmap]. apply (f_equal2 cons).
      * first [done | do 2 f_equal; lia].
      * rewrite Hcs, <- (fmap_S_seq 1), <- list_fmap_compose.
        apply list_fmap_ext. intros _ i _. simpl. do 3 f_equal. lia.
    + exists v'. split; [done |].
      replace (Z.min (c + Z.of_nat (S (length rest))) Js.two53)
        with (Z.min (Z.min (c + 1) Js.two53 + Z.of_nat (length rest)) Js.two53)
        by lia.
      done.
    + rewrite Hadm. unfold isNext, admittedWith. cbn [completion]. lia.
Qed.

(** Any number of calls inside the live window [(h, e)] of their key, for a
    limit below 2^53: the responses, the entry left behind, and the number
    of admissions. *)
Lemma serve_window (options : ZebraOptions) (key : DenoKv.Key) (e : Z)
    (calls : list (Hono.Context * Z)) :
  Js.valid_time e ->
  maxRequests options < Js.two53 ->
  forall (kv : DenoKv.Kv) (v : Js.Value) (h : Z),
    kv !! key = Some v -> isWindowState v h e ->
    0 <= h ->
    Forall (fun call => storageKey call.1 = key /\ call.2 <= e) calls ->
    completion <$> (serve options calls kv).2 =
      windowResponse options h e <$> seq 1 (length calls)
    /\ (exists v', (serve options calls kv).1 !! key = Some v'
         /\ isWindowState v'
              (Z.max h (Z.min (h + Z.of_nat (length calls)) (maxRequests options))) e)
    /\ admissions (serve options calls kv).2 =
         Z.max 0 (Z.min (Z.of_nat (length calls)) (maxRequests options - h)).
Proof.
  intros He Hsafe. pose proof two53_pos as Htwo.
  induction calls as [| [c t] rest IH]; intros kv v h Hkv Hv Hh Hall.
  - simpl. split; [done |]. split; [| unfold admissions; simpl; lia].
    exists v. split; [done |].
    replace (Z.max h (Z.min (h + Z.of_nat 0) (maxRequests options))) with h by lia.
    done.
  - apply Forall_cons in Hall as [[Hkey Ht] Hrest]. simpl in Hkey, Ht.
    rewrite serve_cons. cbn [fst snd length]. rewrite fmap_cons, admissions_cons.
    assert (Hcount : countHit (windowMs options) (DenoKv.get kv (storageKey c)) t
                     = (Js.Int (Js.round (h + 1)), Js.Num (Js.Int e))).
    { rewrite Hkey, (get_present _ _ _ Hkv). by apply countHit_live. }
    destruct (Z.le_gt_cases (h + 1) (maxRequests options)) as [Hfits | Hover].
    + rewrite (round_exact (h + 1)) in Hcount by lia.
      rewrite (middleware_admits options c t kv (h + 1) e Hcount Hfits He).
      rewrite (round_exact (maxRequests options - (h + 1))) by lia.
      cbn [kv_after completion]. rewrite Hkey.
      destruct (IH (<[key := windowState (Js.Int (h + 1)) (Js.Num (Js.Int e))]> kv)
                   (windowState (Js.Int (h + 1)) (Js.Num (Js.Int e))) (h + 1))
        as (Hcs & (v' & Hv' & Hst) & Hadm);
        [apply lookup_insert_eq | apply windowState_is | lia | done |].
      split; [| split].
      * cbn [seq fmap list_fmap]. f_equal.
        -- unfold windowResponse.
           destruct (Z.leb_spec (h + Z.of_nat 1) (maxRequests options));
             [do 2 f_equal; lia | lia].
        -- rewrite Hcs, <- (fmap_S_seq 1), <- list_fmap_compose.
           apply list_fmap_ext. intros _ i _. unfold windowResponse. simpl.
           replace (h + 1 + Z.of_nat i) with (h + Z.of_nat (S i)) by lia. done.
      * exists v'. split; [done |].
        replace (Z.max h (Z.min (h + Z.of_nat (S (length rest))) (maxRequests options)))
          with (Z.max (h + 1)
                  (Z.min (h + 1 + Z.of_nat (length rest)) (maxRequests options)))
          by lia.
        done.
      * rewrite Hadm. unfold isNext, admittedWith. cbn [completion]. lia.
    + assert (Hblock : maxRequests options < Js.round (h + 1)).
      { destruct (Z.le_gt_cases (h + 1) Js.two53).
        - rewrite round_exact; lia.
        - pose proof (round_above (h + 1)). lia. }
      rewrite (middleware_blocks options c t kv _ e Hcount Hblock He).
      cbn [kv_after completion isNext].
      destruct (IH kv v h) as (Hcs & (v' & Hv' & Hst) & Hadm);
        [done | done | done | done |].
      split; [| split].
      * cbn [seq fmap list_fmap]. f_equal.
        -- unfold windowResponse.
           destruct (Z.leb_spec (h + Z.of_nat 1) (maxRequests options));
             [lia | done].
        -- rewrite Hcs, <- (fmap_S_seq 1), <- list_fmap_compose.
           apply list_fmap_ext. intros j i Hj. apply lookup_seq in Hj as [-> _].
           unfold windowResponse. simpl.
           destruct (Z.leb_spec (h + Z.of_nat (S j)) (maxRequests options));
             destruct (Z.leb_spec (h + Z.of_nat (S (S j))) (maxRequests options));
             try done; lia.
      * exists v'. split; [done |].
        replace (Z.max h (Z.min (h + Z.of_nat (S (length rest))) (maxRequests options)))
          with (Z.max h (Z.min (h + Z.of_nat (length rest)) (maxRequests options)))
          by lia.
        done.
      * rewrite Hadm. unfold isNext, rejectedUntil. cbn [completion]. lia.
Qed.

(** A call that finds no entry or an expired window state opens a window. *)
Lemma fresh_call (options : ZebraOptions) (c : Hono.Context) (t : Z)
    (kv : DenoKv.Kv) :
  1 <= maxRequests options ->
  Js.valid_time (t + windowMs options) ->
  (kv !! storageKey c = None
   \/ exists v h e, kv !! storageKey c = Some v /\ isWindowState v h e /\ e < t) ->
  middleware options c t kv =
    {| kv_after :=
         <[storageKey c :=
             windowState (Js.Int 1) (Js.Num (Js.Int (t + windowMs options)))]> kv;
       ops := [DenoKv.Get (storageKey c);
               DenoKv.Set_ (storageKey c)
                 (windowState (Js.Int 1) (Js.Num (Js.Int (t + windowMs options))))
                 None];
       completion :=
         admittedWith options (Js.round (maxRequests options - 1))
                      (t + windowMs options) |}.
Proof.
  intros Hmax Ht Hfresh. apply middleware_admits; [| done | done].
  rewrite <- (valid_time_round _ Ht).
  destruct Hfresh as [Hkv | (v & h & e & Hkv & Hv & Hexp)].
  - rewrite (get_absent _ _ Hkv). by apply countHit_falsy.
  - rewrite (get_present _ _ _ Hkv). by eapply countHit_expired.
Qed.

(** A window from its opening call on, while the calls stay within the
    limit. *)
Lemma serve_fresh_admitted (options : ZebraOptions) (c : Hono.Context) (t1 : Z)
    (later : list (Hono.Context * Z)) (kv : DenoKv.Kv) :
  Z.of_nat (S (length later)) <= maxRequests options ->
  Js.valid_time (t1 + windowMs options) ->
  (kv !! storageKey c = None
   \/ exists v h e, kv !! storageKey c = Some v /\ isWindowState v h e /\ e < t1) ->
  Forall (fun call => clientKey call.1 = clientKey c
                      /\ call.2 <= t1 + windowMs options) later ->
  completion <$> (serve options ((c, t1) :: later) kv).2 =
    (fun i : nat =>
       admittedWith options
         (Js.round (maxRequests options - Z.min (Z.of_nat i) Js.two53))
         (t1 + windowMs options))
      <$> seq 1 (S (length later))
  /\ (exists v', (serve options ((c, t1) :: later) kv).1 !! storageKey c = Some v'
       /\ isWindowState v' (Z.min (Z.of_nat (S (length later))) Js.two53)
            (t1 + windowMs options))
  /\ admissions (serve options ((c, t1) :: later) kv).2 = Z.of_nat (S (length later)).
Proof.
  intros Hn He Hfresh Hlater. pose proof two53_pos as Htwo.
  rewrite serve_cons. cbn [fst snd]. rewrite fmap_cons, admissions_cons.
  rewrite (fresh_call options c t1 kv) by (done || lia). cbn [kv_after completion].
  destruct (serve_admitted options (storageKey c) (t1 + windowMs options) later He
              (<[storageKey c :=
                   windowState (Js.Int 1) (Js.Num (Js.Int (t1 + windowMs options)))]> kv)
              (windowState (Js.Int 1) (Js.Num (Js.Int (t1 + windowMs options)))) 1)
    as (Hcs & (v' & Hv' & Hst) & Hadm).
  - apply lookup_insert_eq.
  - apply windowState_is.
  - lia.
  - eapply Forall_impl; [exact Hlater |].
    intros [c' t'] [Hk Ht]. split; [by apply storageKey_of_clientKey | done].
  - lia.
  - split; [| split].
    + cbn [seq fmap list_fmap]. apply (f_equal2 cons).
      * first [done | do 2 f_equal; lia].
      * rewrite Hcs, <- (fmap_S_seq 1), <- list_fmap_compose.
        apply list_fmap_ext. intros _ i _. simpl. do 3 f_equal. lia.
    + exists v'. split; [done |].
      replace (Z.min (Z.of_nat (S (length later))) Js.two53)
        with (Z.min (1 + Z.of_nat (length later)) Js.two53) by lia.
      done.
    + rewrite Hadm. unfold isNext, admittedWith. cbn [completion]. lia.
Qed.

(** A window from its opening call on, for a limit below 2^53 and any
    number of further calls inside it. *)
Lemma serve_fresh (options : ZebraOptions) (c : Hono.Context) (t1 : Z)
    (later : list (Hono.Context * Z)) (kv : DenoKv.Kv) :
  1 <= maxRequests options ->
  maxRequests options < Js.two53 ->
  Js.valid_time (t1 + windowMs options) ->
  (kv !! storageKey c = None
   \/ exists v h e, kv !! storageKey c = Some v /\ isWindowState v h e /\ e < t1) ->
  Forall (fun call => clientKey call.1 = clientKey c
                      /\ call.2 <= t1 + windowMs options) later ->
  completion <$> (serve options ((c, t1) :: later) kv).2 =
    windowResponse options 0 (t1 + windowMs options) <$> seq 1 (S (length later))
  /\ (exists v', (serve options ((c, t1) :: later) kv).1 !! storageKey c = Some v'
       /\ isWindowState v'
            (Z.min (Z.of_nat (S (length later))) (maxRequests options))
            (t1 + windowMs options))
  /\ admissions (serve options ((c, t1) :: later) kv).2 =
       Z.min (Z.of_nat (S (length later))) (maxRequests options).
Proof.
  intros Hmax Hsafe He Hfresh Hlater. pose proof two53_pos as Htwo.
  rewrite serve_cons. cbn [fst snd]. rewrite fmap_cons, admissions_cons.
  rewrite (fresh_call options c t1 kv Hmax He Hfresh). cbn [kv_after completion].
  rewrite (round_exact (maxRequests options - 1)) by lia.
  destruct (serve_window options (storageKey c) (t1 + windowMs options) later He Hsafe
              (<[storageKey c :=
                   windowState (Js.Int 1) (Js.Num (Js.Int (t1 + windowMs options)))]> kv)
              (windowState (Js.Int 1) (Js.Num (Js.Int (t1 + windowMs options)))) 1)
    as (Hcs & (v' & Hv' & Hst) & Hadm).
  - apply lookup_insert_eq.
  - apply windowState_is.
  - lia.
  - eapply Forall_impl; [exact Hlater |].
    intros [c' t'] [Hk Ht]. split; [by apply storageKey_of_clientKey | done].
  - split; [| split].
    + cbn [seq fmap list_fmap]. f_equal.
      * unfold windowResponse.
        destruct (Z.leb_spec (0 + Z.of_nat 1) (maxRequests options)); [| lia].
        reflexivity.
      * rewrite Hcs, <- (fmap_S_seq 1), <- list_fmap_compose.
        apply list_fmap_ext. intros _ i _. unfold windowResponse. simpl.
        replace (0 + Z.of_nat (S i)) with (1 + Z.of_nat i) by lia. done.
    + exists v'. split; [done |].
      replace (Z.min (Z.of_nat (S (length later))) (maxRequests options))
        with (Z.max 1 (Z.min (1 + Z.of_nat (length later)) (maxRequests options)))
        by lia.
      done.
    + rewrite Hadm. unfold isNext, admittedWith. cbn [completion]. lia.
Qed.

(** The scenario of the specification: two requests per minute, calls at
    0, 10, 20 and 61000 ms. *)
Example two_per_minute_scenario :
  completion <$>
    (serve twoPerMinute [(alice, 0); (alice, 10); (alice, 20); (alice, 61000)] ∅).2
  = [admittedWith twoPerMinute 1 60000;
     admittedWith twoPerMinute 0 60000;
     rejectedUntil twoPerMinute 60000;
     admittedWith twoPerMinute 1 121000].
Proof. vm_compute. reflexivity. Qed.

(** Where counting stops: with 2^53 hits stored under a limit of 2^53, one
    more hit still makes 2^53, so the call is let through and the same
    count is written back. *)
Example counting_stops_at_two53 :
  let kv : DenoKv.Kv :=
    {[ storageKey alice :=
         windowState (Js.Int 9007199254740992) (Js.Num (Js.Int 60000)) ]} in
  completion (middleware atTwo53 alice 20 kv) = admittedWith atTwo53 0 60000
  /\ kv_after (middleware atTwo53 alice 20 kv) = kv.
Proof. vm_compute. split; reflexivity. Qed.

(** ** Counting inside one window *)

(** C1. For a key with no prior record, n <= maxRequests calls with that key
    inside one window (none later than the expiry set by the first call) are
    all admitted, and the i-th call answers X-RateLimit-Remaining =
    maxRequests - i, from maxRequests - 1 down to maxRequests - n.  The
    limit is taken to be at most 2^53, so that these numbers are exact. *)
Theorem calls_within_limit_admitted (options : ZebraOptions) (c : Hono.Context)
    (t1 : Z) (later : list (Hono.Context * Z)) (kv : DenoKv.Kv) :
  kv !! storageKey c = None ->
  Z.of_nat (S (length later)) <= maxRequests options ->
  maxRequests options <= 9007199254740992 ->
  Js.valid_time (t1 + windowMs options) ->
  Forall (fun call => clientKey call.1 = clientKey c
                      /\ call.2 <= t1 + windowMs options) later ->
  length (serve options ((c, t1) :: later) kv).2 = S (length later)
  /\ forall (i : nat) (o : Outcome),
       (serve options ((c, t1) :: later) kv).2 !! i = Some o ->
       exists headers,
         completion o = Js.Normal (Hono.Next headers)
         /\ headers !! "X-RateLimit-Limit"
            = Some (Js.NumberToString (Js.Int (maxRequests options)))
         /\ headers !! "X-RateLimit-Remaining"
            = Some (Js.NumberToString (Js.Int (maxRequests options - Z.of_nat (S i))))
         /\ headers !! "X-RateLimit-Reset"
            = Some (Js.IsoString (t1 + windowMs options)).
Proof.
  intros Hkv Hn Hsafe He Hlater.
  destruct (serve_fresh_admitted options c t1 later kv Hn He (or_introl Hkv) Hlater)
    as (Hcs & _ & _).
  split; [apply serve_length |].
  intros i o Hi.
  assert (Hlt : (i < S (length later))%nat).
  { apply lookup_lt_Some in Hi. by rewrite serve_length in Hi. }
  assert (Hc : (completion <$> (serve options ((c, t1) :: later) kv).2) !! i
               = Some (completion o)) by (by rewrite list_lookup_fmap, Hi).
  rewrite Hcs, list_lookup_fmap, lookup_seq_lt in Hc by done.
  injection Hc as Hc. symmetry in Hc.
  apply (admittedWith_sentDownstream options o) in Hc.
  unfold Js.two53 in Hc.
  rewrite Z.min_l, round_exact in Hc by (unfold Js.two53; lia).
  exact Hc.
Qed.

Lemma calls_within_limit_admitted_witness :
  length (serve twoPerMinute [(alice, 0); (alice, 10)] ∅).2 = 2%nat
  /\ forall (i : nat) (o : Outcome),
       (serve twoPerMinute [(alice, 0); (alice, 10)] ∅).2 !! i = Some o ->
       exists headers,
         completion o = Js.Normal (Hono.Next headers)
         /\ headers !! "X-RateLimit-Limit" = Some (Js.NumberToString (Js.Int 2))
         /\ headers !! "X-RateLimit-Remaining"
            = Some (Js.NumberToString (Js.Int (2 - Z.of_nat (S i))))
         /\ headers !! "X-RateLimit-Reset" = Some (Js.IsoString (0 + 60000)).
Proof.
  apply (calls_within_limit_admitted twoPerMinute alice 0 [(alice, 10)] ∅).
  - reflexivity.
  - simpl. lia.
  - simpl. lia.
  - unfold Js.valid_time, Js.max_time_value. simpl. lia.
  - repeat constructor. simpl. lia.
Defined.

(** C2. A call that finds no record for its key, or a record whose expiresAt
    is strictly before the current time, is served as the first of a fresh
    window: it is handed downstream, the object {hits: 1, expiresAt: now +
    windowMs} is written under its key, and the response carries that expiry
    as reset time (and maxRequests - 1 as remaining count, exact for limits
    up to 2^53). *)
Theorem fresh_window_call (options : ZebraOptions) (c : Hono.Context) (t : Z)
    (kv : DenoKv.Kv) :
  1 <= maxRequests options ->
  Js.valid_time (t + windowMs options) ->
  (kv !! storageKey c = None
   \/ exists v h e, kv !! storageKey c = Some v /\ isWindowState v h e /\ e < t) ->
  let o := middleware options c t kv in
  let fresh :=
    Js.Object [("hits", Js.Num (Js.Int 1));
               ("expiresAt", Js.Num (Js.Int (t + windowMs options)))] in
  (exists headers,
     completion o = Js.Normal (Hono.Next headers)
     /\ headers !! "X-RateLimit-Limit"
        = Some (Js.NumberToString (Js.Int (maxRequests options)))
     /\ headers !! "X-RateLimit-Reset"
        = Some (Js.IsoString (t + windowMs options))
     /\ (maxRequests options <= 9007199254740992 ->
         headers !! "X-RateLimit-Remaining"
         = Some (Js.NumberToString (Js.Int (maxRequests options - 1)))))
  /\ ops o = [DenoKv.Get ["rate-limit:" +:+ clientKey c];
              DenoKv.Set_ ["rate-limit:" +:+ clientKey c] fresh None]
  /\ kv_after o = <[ ["rate-limit:" +:+ clientKey c] := fresh ]> kv.
Proof.
  intros Hmax Ht Hfresh o fresh. unfold o.
  rewrite (fresh_call options c t kv Hmax Ht Hfresh). cbn [completion ops kv_after].
  split; [| split; reflexivity].
  eexists. split; [reflexivity |].
  destruct (rateLimitHeaders_lookup (maxRequests options)
              (Js.NumberToString (Js.Int (Js.round (maxRequests options - 1))))
              (Js.IsoString (t + windowMs options))) as (Hl & Hr & Hreset).
  split; [exact Hl |]. split; [exact Hreset |].
  intros Hsafe. rewrite Hr. by rewrite round_exact by (unfold Js.two53; lia).
Qed.

Lemma fresh_window_call_witness :
  let o := middleware twoPerMinute alice 61000 aliceFull in
  let fresh :=
    Js.Object [("hits", Js.Num (Js.Int 1));
               ("expiresAt", Js.Num (Js.Int (61000 + 60000)))] in
  (exists headers,
     completion o = Js.Normal (Hono.Next headers)
     /\ headers !! "X-RateLimit-Limit" = Some (Js.NumberToString (Js.Int 2))
     /\ headers !! "X-RateLimit-Reset" = Some (Js.IsoString (61000 + 60000))
     /\ (2 <= 9007199254740992 ->
         headers !! "X-RateLimit-Remaining"
         = Some (Js.NumberToString (Js.Int (2 - 1)))))
  /\ ops o = [DenoKv.Get ["rate-limit:" +:+ clientKey alice];
              DenoKv.Set_ ["rate-limit:" +:+ clientKey alice] fresh None]
  /\ kv_after o = <[ ["rate-limit:" +:+ clientKey alice] := fresh ]> aliceFull.
Proof.
  apply (fresh_window_call twoPerMinute alice 61000 aliceFull).
  - simpl. lia.
  - unfold Js.valid_time, Js.max_time_value. simpl. lia.
  - right. exists (windowState (Js.Int 2) (Js.Num (Js.Int 60000))), 2, 60000.
    split; [apply lookup_singleton_eq |]. split; [apply windowState_is | lia].
Defined.

(** C3. In any window, whether opened on a key without a record or over an
    expired one, once maxRequests calls have been admitted the next call
    with the same key inside the window is rejected: status 429 with
    X-RateLimit-Limit, X-RateLimit-Remaining = "0" and X-RateLimit-Reset set,
    nothing written, and the downstream handler not invoked.  The limit is
    taken below 2^53, where counting is exact. *)
Theorem call_beyond_limit_rejected (options : ZebraOptions) (c : Hono.Context)
    (t1 : Z) (later : list (Hono.Context * Z)) (c' : Hono.Context) (t' : Z)
    (kv : DenoKv.Kv) :
  (kv !! storageKey c = None
   \/ exists v h e, kv !! storageKey c = Some v /\ isWindowState v h e /\ e < t1) ->
  Z.of_nat (S (length later)) = maxRequests options ->
  maxRequests options < 9007199254740992 ->
  Js.valid_time (t1 + windowMs options) ->
  Forall (fun call => clientKey call.1 = clientKey c
                      /\ call.2 <= t1 + windowMs options) later ->
  clientKey c' = clientKey c ->
  t' <= t1 + windowMs options ->
  let kv1 := (serve options ((c, t1) :: later) kv).1 in
  let o := middleware options c' t' kv1 in
  (exists headers,
     completion o = Js.Normal (Hono.TextResponse "Too Many Requests" 429 headers)
     /\ headers !! "X-RateLimit-Limit"
        = Some (Js.NumberToString (Js.Int (maxRequests options)))
     /\ headers !! "X-RateLimit-Remaining" = Some (Js.Literal "0")
     /\ headers !! "X-RateLimit-Reset"
        = Some (Js.IsoString (t1 + windowMs options)))
  /\ ~ admitted o
  /\ kv_after o = kv1
  /\ ops o = [DenoKv.Get ["rate-limit:" +:+ clientKey c']].
Proof.
  intros Hfresh Hn Hsafe He Hlater Hc' Ht' kv1 o.
  destruct (serve_fresh_admitted options c t1 later kv) as (_ & (v' & Hv' & Hst) & _);
    [lia | done | done | done |].
  fold kv1 in Hv'. rewrite Z.min_l in Hst by (unfold Js.two53; lia).
  assert (Ho : o = {| kv_after := kv1;
                      ops := [DenoKv.Get (storageKey c')];
                      completion := rejectedUntil options (t1 + windowMs options) |}).
  { apply middleware_blocks with (n := Z.of_nat (S (length later)) + 1);
      [| lia | done].
    rewrite (storageKey_of_clientKey _ _ Hc'), (get_present _ _ _ Hv').
    rewrite (countHit_live _ _ _ _ _ Hst Ht').
    by rewrite round_exact by (unfold Js.two53; lia). }
  rewrite Ho. cbn [kv_after ops]. split; [| split; [| split; reflexivity]].
  - by apply (rejectedUntil_answered429 options).
  - intros [headers Hcomp]. discriminate Hcomp.
Qed.

Lemma call_beyond_limit_rejected_witness :
  let kv1 := (serve twoPerMinute [(alice, 61000); (alice, 61010)] aliceFull).1 in
  let o := middleware twoPerMinute alice 61020 kv1 in
  (exists headers,
     completion o = Js.Normal (Hono.TextResponse "Too Many Requests" 429 headers)
     /\ headers !! "X-RateLimit-Limit" = Some (Js.NumberToString (Js.Int 2))
     /\ headers !! "X-RateLimit-Remaining" = Some (Js.Literal "0")
     /\ headers !! "X-RateLimit-Reset" = Some (Js.IsoString (61000 + 60000)))
  /\ ~ admitted o
  /\ kv_after o = kv1
  /\ ops o = [DenoKv.Get ["rate-limit:" +:+ clientKey alice]].
Proof.
  apply (call_beyond_limit_rejected twoPerMinute alice 61000 [(alice, 61010)]
           alice 61020 aliceFull).
  - right. exists (windowState (Js.Int 2) (Js.Num (Js.Int 60000))), 2, 60000.
    split; [apply lookup_singleton_eq |]. split; [apply windowState_is | lia].
  - reflexivity.
  - simpl. lia.
  - unfold Js.valid_time, Js.max_time_value. simpl. lia.
  - repeat constructor. simpl. lia.
  - reflexivity.
  - simpl. lia.
Defined.

(** ** Store effects of one call *)

(** What a call does to the store is decided by the limit test alone,
    whether or not the response is produced afterwards. *)
Lemma middleware_effects (options : ZebraOptions) (c : Hono.Context) (t : Z)
    (kv : DenoKv.Kv) :
  let key := storageKey c in
  let counted := countHit (windowMs options) (DenoKv.get kv key) t in
  let state := windowState counted.1 counted.2 in
  ops (middleware options c t kv) =
    DenoKv.Get key
      :: (if blocked options c t kv then [] else [DenoKv.Set_ key state None])
  /\ kv_after (middleware options c t kv) =
       (if blocked options c t kv then kv else <[key := state]> kv).
Proof.
  unfold middleware, blocked. simpl.
  destruct (countHit _ _ _) as [hits expiresAt]. cbn [fst snd].
  destruct (Js.gt hits _); destruct (Js.toISOString _); done.
Qed.

Lemma rejected_blocked (options : ZebraOptions) (c : Hono.Context) (t : Z)
    (kv : DenoKv.Kv) :
  rejected (middleware options c t kv) -> blocked options c t kv = true.
Proof.
  unfold rejected, middleware, blocked.
  destruct (countHit _ _ _) as [hits expiresAt]. cbn [fst].
  destruct (Js.gt hits _); [done |].
  destruct (Js.toISOString _); intros (? & ? & ? & H); discriminate H.
Qed.

Lemma admitted_not_blocked (options : ZebraOptions) (c : Hono.Context) (t : Z)
    (kv : DenoKv.Kv) :
  admitted (middleware options c t kv) -> blocked options c t kv = false.
Proof.
  unfold admitted, middleware, blocked.
  destruct (countHit _ _ _) as [hits expiresAt]. cbn [fst].
  destruct (Js.gt hits _); [| done].
  destruct (Js.toISOString _); intros (? & H); discriminate H.
Qed.

(** C4, as the code has it: a rejected call leaves the store unchanged.
    Every call issues exactly one read of its storage key, then at most one
    write, to the same key and without a TTL, and nothing else.  A call that
    is handed downstream has written; a call that has written was handed
    downstream or threw after the write, since the write of line 76 comes
    before the reset time is printed on line 81. *)
Theorem store_effects_of_call (options : ZebraOptions) (c : Hono.Context)
    (t : Z) (kv : DenoKv.Kv) :
  let o := middleware options c t kv in
  let key := storageKey c in
  (rejected o -> kv_after o = kv /\ ops o = [DenoKv.Get key])
  /\ (admitted o ->
       exists state, ops o = [DenoKv.Get key; DenoKv.Set_ key state None]
                     /\ kv_after o = <[key := state]> kv)
  /\ (ops o = [DenoKv.Get key] /\ kv_after o = kv
      \/ exists state, ops o = [DenoKv.Get key; DenoKv.Set_ key state None]
                        /\ kv_after o = <[key := state]> kv)
  /\ (forall k state ttl,
        DenoKv.Set_ k state ttl ∈ ops o ->
        admitted o \/ exists e, completion o = Js.Throw e).
Proof.
  intros o key. destruct (middleware_effects options c t kv) as [Hops Hkv].
  fold o key in Hops, Hkv. split; [| split; [| split]].
  - intros Hr. rewrite Hkv, Hops. by rewrite (rejected_blocked _ _ _ _ Hr).
  - intros Ha. eexists. rewrite Hops, Hkv.
    by rewrite (admitted_not_blocked _ _ _ _ Ha).
  - rewrite Hops, Hkv. destruct (blocked options c t kv); [by left | right; eauto].
  - intros k state ttl. unfold o, middleware.
    destruct (countHit _ _ _) as [hits expiresAt].
    destruct (Js.gt hits _); destruct (Js.toISOString _); cbn [ops completion];
      intros Hin.
    + apply list_elem_of_singleton in Hin. discriminate Hin.
    + apply list_elem_of_singleton in Hin. discriminate Hin.
    + left. unfold admitted. cbn [completion]. eauto.
    + right. eauto.
Qed.

Lemma store_effects_of_call_witness :
  kv_after (middleware twoPerMinute alice 20 aliceFull) = aliceFull
  /\ ops (middleware twoPerMinute alice 20 aliceFull)
     = [DenoKv.Get (storageKey alice)].
Proof.
  apply (store_effects_of_call twoPerMinute alice 20 aliceFull).
  by exists "Too Many Requests", 429,
    (rateLimitHeaders 2 (Js.Literal "0") (Js.IsoString 60000)).
Defined.

(** C4 as stated fails: with a window of 9e15 ms the first call of a client
    writes {hits: 1, expiresAt} and then throws, the expiry being beyond the
    range of Date; there is one write although the call is not admitted. *)
Lemma written_but_not_admitted :
  let o := middleware hugeWindow alice 1700000000000 ∅ in
  ops o = [DenoKv.Get (storageKey alice);
           DenoKv.Set_ (storageKey alice)
             (Js.Object [("hits", Js.Num (Js.Int 1));
                         ("expiresAt", Js.Num (Js.Int 9001700000000000))]) None]
  /\ kv_after o !! storageKey alice
     = Some (Js.Object [("hits", Js.Num (Js.Int 1));
                        ("expiresAt", Js.Num (Js.Int 9001700000000000))])
  /\ completion o = Js.Throw (Js.RangeError "Invalid time value")
  /\ ~ admitted o.
Proof.
  split; [reflexivity |]. split; [reflexivity |]. split; [reflexivity |].
  intros [headers H]. discriminate H.
Qed.

(** ** Rejected calls and the stored count *)

(** C5, as the code has it: a rejected call counts itself only in its own
    limit test; the increment is not persisted, so the store and the stored
    count are the same afterwards and a later call in the same window is
    served exactly as the rejected one was.  For a stored count h >= 0 and a
    limit below 2^53 the call is rejected exactly when h + 1 exceeds
    maxRequests. *)
Theorem rejected_call_not_persisted (options : ZebraOptions) (c : Hono.Context)
    (t t' : Z) (kv : DenoKv.Kv) (v : Js.Value) (h e : Z) :
  kv !! storageKey c = Some v ->
  isWindowState v h e ->
  t <= e -> t' <= e ->
  let o := middleware options c t kv in
  (rejected o ->
   kv_after o = kv
   /\ kv_after o !! storageKey c = Some v
   /\ middleware options c t' (kv_after o) = o)
  /\ (0 <= h -> maxRequests options < 9007199254740992 -> Js.valid_time e ->
      (rejected o <-> maxRequests options < h + 1)).
Proof.
  intros Hkv Hv Ht Ht' o.
  assert (Hcount : forall t0, t0 <= e ->
            countHit (windowMs options) (DenoKv.get kv (storageKey c)) t0
            = (Js.Int (Js.round (h + 1)), Js.Num (Js.Int e))).
  { intros t0 Ht0. rewrite (get_present _ _ _ Hkv). by apply countHit_live. }
  split.
  - intros Hr.
    assert (Hsame : kv_after o = kv).
    { destruct (middleware_effects options c t kv) as [_ Hafter].
      fold o in Hafter. by rewrite (rejected_blocked _ _ _ _ Hr) in Hafter. }
    rewrite Hsame. split; [done |]. split; [done |].
    unfold o, middleware. by rewrite (Hcount t Ht), (Hcount t' Ht').
  - intros Hh Hsafe He.
    destruct (Z.lt_ge_cases (maxRequests options) (h + 1)) as [Hover | Hfits].
    + assert (Hblock : maxRequests options < Js.round (h + 1)).
      { destruct (Z.le_gt_cases (h + 1) Js.two53).
        - rewrite round_exact; lia.
        - pose proof (round_above (h + 1)). unfold Js.two53 in *. lia. }
      split; [done |]. intros _. unfold o.
      rewrite (middleware_blocks options c t kv _ e (Hcount t Ht) Hblock He).
      unfold rejected, rejectedUntil. cbn [completion]. eauto.
    + assert (Ho : completion o
                   = admittedWith options (Js.round (maxRequests options - (h + 1))) e).
      { unfold o. rewrite (middleware_admits options c t kv (h + 1) e); [done | | done | done].
        rewrite (Hcount t Ht). by rewrite round_exact by (unfold Js.two53; lia). }
      split; [| lia]. intros (? & ? & ? & Hr). rewrite Ho in Hr. discriminate Hr.
Qed.

Lemma rejected_call_not_persisted_witness :
  let o := middleware twoPerMinute alice 20 aliceFull in
  (rejected o ->
   kv_after o = aliceFull
   /\ kv_after o !! storageKey alice
      = Some (windowState (Js.Int 2) (Js.Num (Js.Int 60000)))
   /\ middleware twoPerMinute alice 30 (kv_after o) = o)
  /\ (0 <= 2 -> 2 < 9007199254740992 -> Js.valid_time 60000 ->
      (rejected o <-> 2 < 2 + 1)).
Proof.
  apply (rejected_call_not_persisted twoPerMinute alice 20 30 aliceFull
           (windowState (Js.Int 2) (Js.Num (Js.Int 60000))) 2 60000).
  - apply lookup_singleton_eq.
  - apply windowState_is.
  - lia.
  - lia.
Defined.

(** C5 as stated fails: Alice's window holds 2 hits under a limit of 2; the
    call at t = 20 is rejected, and the stored count is still 2 afterwards,
    not 3. *)
Lemma rejected_call_not_counted :
  let o := middleware twoPerMinute alice 20 aliceFull in
  completion o = rejectedUntil twoPerMinute 60000
  /\ Js.get (DenoKv.get aliceFull (storageKey alice)) "hits" = Js.Num (Js.Int 2)
  /\ Js.get (DenoKv.get (kv_after o) (storageKey alice)) "hits" = Js.Num (Js.Int 2)
  /\ Js.get (DenoKv.get (kv_after o) (storageKey alice)) "hits"
     <> Js.Num (Js.Int (2 + 1)).
Proof. vm_compute. repeat split; discriminate. Qed.

(** ** Independence of clients *)

Lemma storageKey_rateLimitKey c : rateLimitKey (storageKey c).
Proof. by exists (clientKey c). Qed.

Lemma storageKey_ne c c' :
  clientKey c <> clientKey c' -> storageKey c <> storageKey c'.
Proof. intros Hne Heq. apply Hne. by apply storageKey_inj. Qed.

(** A call touches the entry of its own key only. *)
Lemma middleware_frame (options : ZebraOptions) (c : Hono.Context) (t : Z)
    (kv : DenoKv.Kv) (k : DenoKv.Key) :
  k <> storageKey c -> kv_after (middleware options c t kv) !! k = kv !! k.
Proof.
  intros Hk. destruct (middleware_effects options c t kv) as [_ ->].
  destruct (blocked options c t kv); [done |]. by rewrite lookup_insert_ne.
Qed.

(** A call depends on the store through the entry of its own key only. *)
Lemma middleware_local (options : ZebraOptions) (c : Hono.Context) (t : Z)
    (kv kv' : DenoKv.Kv) :
  kv !! storageKey c = kv' !! storageKey c ->
  completion (middleware options c t kv) = completion (middleware options c t kv')
  /\ ops (middleware options c t kv) = ops (middleware options c t kv')
  /\ kv_after (middleware options c t kv) !! storageKey c
     = kv_after (middleware options c t kv') !! storageKey c.
Proof.
  intros Heq. unfold middleware, DenoKv.get, DenoKv.set. rewrite Heq.
  destruct (countHit _ _ _) as [hits expiresAt].
  destruct (Js.gt hits _); destruct (Js.toISOString _); cbn [completion ops kv_after];
    repeat split; try done; by rewrite !lookup_insert_eq.
Qed.

Lemma serve_frame (options : ZebraOptions) (k : DenoKv.Key)
    (calls : list (Hono.Context * Z)) :
  Forall (fun call => storageKey call.1 <> k) calls ->
  forall kv : DenoKv.Kv, (serve options calls kv).1 !! k = kv !! k.
Proof.
  induction 1 as [| [c t] rest Hc _ IH]; intros kv; [done |].
  rewrite serve_cons. cbn [fst]. rewrite IH. apply middleware_frame.
  simpl in Hc. congruence.
Qed.

(** C9. Every store operation of a call is on the key "rate-limit:" followed
    by the client key of the call, and every other entry is left as it was;
    so whatever calls other clients make, in any number, a client's call
    gets the same response, issues the same operations and leaves the same
    entry for its key as if those calls had not been made. *)
Theorem clients_are_independent (options : ZebraOptions) (c : Hono.Context)
    (t : Z) (others : list (Hono.Context * Z)) (kv : DenoKv.Kv) :
  Forall (fun call => clientKey call.1 <> clientKey c) others ->
  let o := middleware options c t kv in
  let o' := middleware options c t (serve options others kv).1 in
  Forall (fun op => DenoKv.op_key op = ["rate-limit:" +:+ clientKey c]) (ops o)
  /\ (forall k, k <> ["rate-limit:" +:+ clientKey c] -> kv_after o !! k = kv !! k)
  /\ completion o' = completion o
  /\ ops o' = ops o
  /\ kv_after o' !! storageKey c = kv_after o !! storageKey c.
Proof.
  intros Hothers o o'. split; [| split].
  - unfold o. destruct (middleware_effects options c t kv) as [-> _].
    destruct (blocked options c t kv); repeat constructor.
  - intros k Hk. by apply middleware_frame.
  - apply middleware_local, serve_frame.
    eapply Forall_impl; [exact Hothers |]. intros call Hne. by apply storageKey_ne.
Qed.

Lemma clients_are_independent_witness :
  let o := middleware twoPerMinute alice 20 aliceFull in
  let o' := middleware twoPerMinute alice 20
              (serve twoPerMinute [(bob, 5); (bob, 6); (bob, 7)] aliceFull).1 in
  Forall (fun op => DenoKv.op_key op = ["rate-limit:" +:+ clientKey alice]) (ops o)
  /\ (forall k, k <> ["rate-limit:" +:+ clientKey alice] ->
                kv_after o !! k = aliceFull !! k)
  /\ completion o' = completion o
  /\ ops o' = ops o
  /\ kv_after o' !! storageKey alice = kv_after o !! storageKey alice.
Proof.
  apply (clients_are_independent twoPerMinute alice 20
           [(bob, 5); (bob, 6); (bob, 7)] aliceFull).
  repeat constructor; simpl; discriminate.
Defined.

(** ** Range of the stored counts *)

Lemma middleware_counts_in_range (options : ZebraOptions) (c : Hono.Context)
    (t : Z) (kv : DenoKv.Kv) :
  countsInRange (maxRequests options) kv ->
  countsInRange (maxRequests options) (kv_after (middleware options c t kv))
  /\ writesInRange (maxRequests options) (middleware options c t kv).
Proof.
  intros Hinv.
  assert (Hcount : exists n e,
            countHit (windowMs options) (DenoKv.get kv (storageKey c)) t
            = (Js.Int n, Js.Num (Js.Int e)) /\ 1 <= n).
  { destruct (kv !! storageKey c) as [v |] eqn:Hkv.
    - destruct (Hinv _ _ (storageKey_rateLimitKey c) Hkv) as (h & e & Hv & Hh).
      rewrite (get_present _ _ _ Hkv).
      destruct (Z.le_gt_cases t e) as [Hlive | Hexp].
      + exists (Js.round (h + 1)), e.
        split; [by apply countHit_live | apply round_pos; lia].
      + exists 1, (Js.round (t + windowMs options)).
        split; [by eapply countHit_expired | lia].
    - rewrite (get_absent _ _ Hkv).
      exists 1, (Js.round (t + windowMs options)).
      split; [by apply countHit_falsy | lia]. }
  destruct Hcount as (n & e & Hcount & Hn).
  destruct (middleware_effects options c t kv) as [Hops Hkv].
  unfold blocked in Hops, Hkv. rewrite Hcount in Hops, Hkv.
  cbn [fst snd Js.gt] in Hops, Hkv.
  destruct (Z.ltb_spec (maxRequests options) n) as [Hover | Hfits].
  - split.
    + by rewrite Hkv.
    + intros k v ttl Hin. rewrite Hops in Hin.
      apply list_elem_of_singleton in Hin. discriminate Hin.
  - split.
    + rewrite Hkv. intros k v Hk Hlook.
      destruct (decide (k = storageKey c)) as [-> | Hne].
      * rewrite lookup_insert_eq in Hlook. injection Hlook as <-.
        exists n, e. split; [apply windowState_is | lia].
      * rewrite lookup_insert_ne in Hlook by congruence. by eapply Hinv.
    + intros k v ttl Hin. rewrite Hops in Hin.
      apply elem_of_cons in Hin as [Hin | Hin]; [discriminate Hin |].
      apply list_elem_of_singleton in Hin. injection Hin as -> -> _.
      exists n, e. split; [done | lia].
Qed.

(** C10. If every rate-limit entry of the store is a window state with
    1 <= hits <= maxRequests (in particular if there is none), then after
    any sequence of calls this still holds, and every value written on the
    way is a window state with 1 <= hits <= maxRequests. *)
Theorem stored_counts_stay_in_range (options : ZebraOptions)
    (calls : list (Hono.Context * Z)) (kv : DenoKv.Kv) :
  countsInRange (maxRequests options) kv ->
  countsInRange (maxRequests options) (serve options calls kv).1
  /\ Forall (writesInRange (maxRequests options)) (serve options calls kv).2.
Proof.
  revert kv. induction calls as [| [c t] rest IH]; intros kv Hinv.
  - split; [done | constructor].
  - rewrite serve_cons. cbn [fst snd].
    destruct (middleware_counts_in_range options c t kv Hinv) as [Hinv' Hw].
    destruct (IH _ Hinv') as [Hfinal Hws].
    split; [done | by constructor].
Qed.

Lemma stored_counts_stay_in_range_witness :
  countsInRange 2
    (serve twoPerMinute [(alice, 20); (bob, 30); (alice, 61000)] aliceFull).1
  /\ Forall (writesInRange 2)
       (serve twoPerMinute [(alice, 20); (bob, 30); (alice, 61000)] aliceFull).2.
Proof.
  apply (stored_counts_stay_in_range twoPerMinute
           [(alice, 20); (bob, 30); (alice, 61000)] aliceFull).
  intros k v _ Hlook. unfold aliceFull in Hlook.
  apply lookup_singleton_Some in Hlook as [_ <-].
  exists 2, 60000. split; [apply windowState_is | simpl; lia].
Defined.

(** ** Stored values that are not window states *)

(** C6, as the code has it: a stored value that is falsy (undefined, null,
    false, 0, NaN) is treated exactly as an absent record: same response,
    same store operations, same store after an admitted call, and no throw
    as long as now + windowMs is a valid time value.  (Truthy values are
    read as records whatever they are.) *)
Theorem falsy_record_as_absent (options : ZebraOptions) (c : Hono.Context)
    (t : Z) (kv : DenoKv.Kv) (v : Js.Value) :
  kv !! storageKey c = Some v ->
  Js.truthy v = false ->
  let o := middleware options c t kv in
  let o' := middleware options c t (delete (storageKey c) kv) in
  completion o = completion o'
  /\ ops o = ops o'
  /\ (blocked options c t kv = false -> kv_after o = kv_after o')
  /\ (Js.valid_time (t + windowMs options) -> exists r, completion o = Js.Normal r).
Proof.
  intros Hkv Hv o o'.
  assert (Hc : countHit (windowMs options) (DenoKv.get kv (storageKey c)) t
               = (Js.Int 1, Js.Num (Js.Int (Js.round (t + windowMs options))))).
  { rewrite (get_present _ _ _ Hkv). by apply countHit_falsy. }
  assert (Hc' : countHit (windowMs options)
                  (DenoKv.get (delete (storageKey c) kv) (storageKey c)) t
                = (Js.Int 1, Js.Num (Js.Int (Js.round (t + windowMs options))))).
  { rewrite get_absent by apply lookup_delete_eq. by apply countHit_falsy. }
  unfold o, o', blocked, middleware. rewrite Hc, Hc'. cbn [fst].
  destruct (Js.gt _ _).
  - destruct (Js.toISOString _) eqn:Hiso; cbn [completion ops kv_after];
      repeat split; try done; [by eauto |].
    intros Ht. rewrite (valid_time_round _ Ht), new_Date_valid in Hiso by done.
    discriminate Hiso.
  - destruct (Js.toISOString _) eqn:Hiso; cbn [completion ops kv_after];
      unfold DenoKv.set; rewrite insert_delete_eq; repeat split; try done;
      [by eauto |].
    intros Ht. rewrite (valid_time_round _ Ht), new_Date_valid in Hiso by done.
    discriminate Hiso.
Qed.

Lemma falsy_record_as_absent_witness :
  let kv : DenoKv.Kv := {[ storageKey alice := Js.Num (Js.Int 0) ]} in
  let o := middleware twoPerMinute alice 20 kv in
  let o' := middleware twoPerMinute alice 20 (delete (storageKey alice) kv) in
  completion o = completion o'
  /\ ops o = ops o'
  /\ (blocked twoPerMinute alice 20 kv = false -> kv_after o = kv_after o')
  /\ (Js.valid_time (20 + 60000) -> exists r, completion o = Js.Normal r).
Proof.
  apply (falsy_record_as_absent twoPerMinute alice 20
           {[ storageKey alice := Js.Num (Js.Int 0) ]} (Js.Num (Js.Int 0))).
  - apply lookup_singleton_eq.
  - reflexivity.
Defined.

(** C6 as stated fails: with the object {} stored under Alice's key the call
    writes {hits: NaN, expiresAt: undefined} back and throws a RangeError,
    whereas without a record it is admitted with one request left. *)
Lemma corrupt_record_throws :
  completion (middleware twoPerMinute alice 20 aliceCorrupt)
    = Js.Throw (Js.RangeError "Invalid time value")
  /\ kv_after (middleware twoPerMinute alice 20 aliceCorrupt) !! storageKey alice
     = Some (windowState Js.NaN Js.Undefined)
  /\ completion (middleware twoPerMinute alice 20
                   (delete (storageKey alice) aliceCorrupt))
     = admittedWith twoPerMinute 1 60020
  /\ completion (middleware twoPerMinute alice 20 ∅)
     = admittedWith twoPerMinute 1 60020.
Proof. vm_compute. repeat split. Qed.

(** ** Construction *)

(** C7, as the code has it: the factory validates nothing; for every
    configuration, whatever the signs of windowMs and maxRequests, it
    returns the middleware and does not throw. *)
Theorem construction_never_fails (options : ZebraOptions) :
  ZebraCrossing options = Js.Normal (middleware options)
  /\ forall e, ZebraCrossing options <> Js.Throw e.
Proof. split; [done |]. intros e H. discriminate H. Qed.

(** C7 as stated fails: windowMs = 0 and maxRequests = 0 are accepted. *)
Lemma invalid_configuration_accepted :
  (windowMs zeroConfig <= 0 \/ maxRequests zeroConfig <= 0)
  /\ ZebraCrossing zeroConfig = Js.Normal (middleware zeroConfig)
  /\ ~ (exists e, ZebraCrossing zeroConfig = Js.Throw e).
Proof.
  split; [left; simpl; lia |]. split; [done |]. intros [e H]. discriminate H.
Qed.

(** ** Storage-level expiry *)

(** C8, as the code has it: the middleware reads windowMs and maxRequests
    from its options and nothing else, so a resetExpiryOnChange property
    changes nothing, and every write is issued without a storage-level TTL. *)
Theorem writes_carry_no_ttl (options : ZebraOptions)
    (extra : list (string * Js.Value)) (c : Hono.Context) (t : Z)
    (kv : DenoKv.Kv) :
  middleware {| windowMs := windowMs options;
                maxRequests := maxRequests options;
                more := extra |} c t kv
    = middleware options c t kv
  /\ forall k v ttl,
       DenoKv.Set_ k v ttl ∈ ops (middleware options c t kv) -> ttl = None.
Proof.
  split; [done |]. intros k v ttl.
  destruct (middleware_effects options c t kv) as [-> _].
  destruct (blocked options c t kv); intros Hin.
  - apply list_elem_of_singleton in Hin. discriminate Hin.
  - apply elem_of_cons in Hin as [Hin | Hin]; [discriminate Hin |].
    apply list_elem_of_singleton in Hin. by injection Hin as _ _ ->.
Qed.

(** C8 as stated fails: with resetExpiryOnChange set, the admitted call at
    t = 0 persists the window that expires at 60000 with no TTL at all, not
    with the TTL max(0, 60000 - 0). *)
Lemma flag_does_not_set_ttl :
  Js.own_property (more twoPerMinuteWithFlag) "resetExpiryOnChange" = Js.Bool true
  /\ completion (middleware twoPerMinuteWithFlag alice 0 ∅)
     = admittedWith twoPerMinuteWithFlag 1 60000
  /\ ops (middleware twoPerMinuteWithFlag alice 0 ∅)
     = [DenoKv.Get (storageKey alice);
        DenoKv.Set_ (storageKey alice)
          (windowState (Js.Int 1) (Js.Num (Js.Int 60000))) None]
  /\ ops (middleware twoPerMinuteWithFlag alice 0 ∅)
     <> [DenoKv.Get (storageKey alice);
         DenoKv.Set_ (storageKey alice)
           (windowState (Js.Int 1) (Js.Num (Js.Int 60000)))
           (Some (Z.max 0 (60000 - 0)))].
Proof. vm_compute. repeat split. discriminate. Qed.
(** * Further properties of the middleware *)

(** ** A whole window *)

Lemma lookup_response (f : nat -> Js.Completion Hono.Response) (n i : nat)
    (os : list Outcome) (o : Outcome) :
  completion <$> os = f <$> seq 1 n ->
  os !! i = Some o ->
  completion o = f (S i).
Proof.
  intros Hcs Hi.
  assert (Hc : (completion <$> os) !! i = Some (completion o))
    by (by rewrite list_lookup_fmap, Hi).
  rewrite Hcs, list_lookup_fmap in Hc.
  destruct (seq 1 n !! i) as [j |] eqn:Hj; [| discriminate Hc].
  apply lookup_seq in Hj as [-> _]. by injection Hc as <-.
Qed.

(** X1. Inside a live window that holds h >= 0 hits, under a limit below
    2^53, the i-th further call is admitted with maxRequests - (h + i)
    requests left as long as h + i does not exceed maxRequests, and rejected
    after that; every response carries the expiry of the window as its reset
    time, and the stored count stops at maxRequests (or stays where it was,
    if it was already above). *)
Theorem window_responses (options : ZebraOptions) (key : DenoKv.Key) (e : Z)
    (calls : list (Hono.Context * Z)) (kv : DenoKv.Kv) (v : Js.Value) (h : Z) :
  Js.valid_time e ->
  0 <= h ->
  maxRequests options < 9007199254740992 ->
  kv !! key = Some v -> isWindowState v h e ->
  Forall (fun call => storageKey call.1 = key /\ call.2 <= e) calls ->
  length (serve options calls kv).2 = length calls
  /\ (forall (i : nat) (o : Outcome),
        (serve options calls kv).2 !! i = Some o ->
        if h + Z.of_nat (S i) <=? maxRequests options
        then sentDownstream o (maxRequests options)
               (maxRequests options - (h + Z.of_nat (S i))) e
        else answered429 o (maxRequests options) e)
  /\ exists v', (serve options calls kv).1 !! key = Some v'
       /\ isWindowState v'
            (Z.max h (Z.min (h + Z.of_nat (length calls)) (maxRequests options))) e.
Proof.
  intros He Hh Hsafe Hkv Hv Hcalls.
  destruct (serve_window options key e calls He Hsafe kv v h Hkv Hv Hh Hcalls)
    as (Hcs & Hst & _).
  split; [apply serve_length |]. split; [| exact Hst].
  intros i o Hi. pose proof (lookup_response _ _ _ _ _ Hcs Hi) as Ho.
  unfold windowResponse in Ho.
  destruct (h + Z.of_nat (S i) <=? maxRequests options).
  - by apply (admittedWith_sentDownstream options).
  - by apply (rejectedUntil_answered429 options).
Qed.

Lemma window_responses_witness :
  length
    (serve twoPerMinute [(alice, 5); (alice, 6); (alice, 60000)]
       {[ storageKey alice := windowState (Js.Int 1) (Js.Num (Js.Int 60000)) ]}).2
  = 3%nat
  /\ (forall (i : nat) (o : Outcome),
        (serve twoPerMinute [(alice, 5); (alice, 6); (alice, 60000)]
           {[ storageKey alice := windowState (Js.Int 1) (Js.Num (Js.Int 60000)) ]}).2
          !! i = Some o ->
        if 1 + Z.of_nat (S i) <=? 2
        then sentDownstream o 2 (2 - (1 + Z.of_nat (S i))) 60000
        else answered429 o 2 60000)
  /\ exists v',
       (serve twoPerMinute [(alice, 5); (alice, 6); (alice, 60000)]
          {[ storageKey alice := windowState (Js.Int 1) (Js.Num (Js.Int 60000)) ]}).1
         !! storageKey alice = Some v'
       /\ isWindowState v' 2 60000.
Proof.
  apply (window_responses twoPerMinute (storageKey alice) 60000
           [(alice, 5); (alice, 6); (alice, 60000)]
           {[ storageKey alice := windowState (Js.Int 1) (Js.Num (Js.Int 60000)) ]}
           (windowState (Js.Int 1) (Js.Num (Js.Int 60000))) 1).
  - unfold Js.valid_time, Js.max_time_value. simpl. lia.
  - lia.
  - simpl. lia.
  - apply lookup_singleton_eq.
  - apply windowState_is.
  - repeat constructor; simpl; lia.
Defined.

(** X2. The limit itself.  From the call that opens a window on, however
    many calls the client makes before the window expires (up to 2^53 of
    them, beyond which a count held in a double stops growing), exactly
    min(number of calls, maxRequests) of them reach the downstream
    handler. *)
Theorem admissions_per_window (options : ZebraOptions) (c : Hono.Context)
    (t1 : Z) (later : list (Hono.Context * Z)) (kv : DenoKv.Kv) :
  1 <= maxRequests options ->
  Z.of_nat (S (length later)) <= 9007199254740992 ->
  Js.valid_time (t1 + windowMs options) ->
  (kv !! storageKey c = None
   \/ exists v h e, kv !! storageKey c = Some v /\ isWindowState v h e /\ e < t1) ->
  Forall (fun call => clientKey call.1 = clientKey c
                      /\ call.2 <= t1 + windowMs options) later ->
  admissions (serve options ((c, t1) :: later) kv).2 =
    Z.min (Z.of_nat (S (length later))) (maxRequests options).
Proof.
  intros Hmax Hcalls He Hfresh Hlater.
  destruct (Z.lt_ge_cases (maxRequests options) Js.two53) as [Hsafe | Hbig].
  - by destruct (serve_fresh options c t1 later kv Hmax Hsafe He Hfresh Hlater)
      as (_ & _ & ?).
  - unfold Js.two53 in Hbig.
    destruct (serve_fresh_admitted options c t1 later kv) as (_ & _ & ->);
      [lia | done | done | done | lia].
Qed.

Lemma admissions_per_window_witness :
  admissions
    (serve twoPerMinute [(alice, 0); (alice, 1); (alice, 2); (alice, 3); (alice, 4)] ∅).2
  = 2.
Proof.
  apply (admissions_per_window twoPerMinute alice 0
           [(alice, 1); (alice, 2); (alice, 3); (alice, 4)] ∅).
  - simpl. lia.
  - simpl. lia.
  - unfold Js.valid_time, Js.max_time_value. simpl. lia.
  - left. reflexivity.
  - repeat constructor; simpl; lia.
Defined.

(** ** The edge of a window *)

(** X3. The expiry instant belongs to the window.  For a stored count
    h >= 0 and a limit below 2^53, a call made exactly at expiresAt is still
    counted against the stored hits; one millisecond later the call opens a
    fresh window. *)
Theorem expiry_is_inclusive (options : ZebraOptions) (c : Hono.Context)
    (kv : DenoKv.Kv) (v : Js.Value) (h e : Z) :
  kv !! storageKey c = Some v -> isWindowState v h e ->
  0 <= h ->
  1 <= maxRequests options ->
  maxRequests options < 9007199254740992 ->
  Js.valid_time e -> Js.valid_time (e + 1 + windowMs options) ->
  (if h + 1 <=? maxRequests options
   then sentDownstream (middleware options c e kv) (maxRequests options)
          (maxRequests options - (h + 1)) e
   else answered429 (middleware options c e kv) (maxRequests options) e)
  /\ sentDownstream (middleware options c (e + 1) kv) (maxRequests options)
       (maxRequests options - 1) (e + 1 + windowMs options).
Proof.
  intros Hkv Hv Hh Hmax Hsafe He He'. split.
  - assert (Hcount : countHit (windowMs options) (DenoKv.get kv (storageKey c)) e
                     = (Js.Int (Js.round (h + 1)), Js.Num (Js.Int e))).
    { rewrite (get_present _ _ _ Hkv). apply countHit_live; [done | lia]. }
    destruct (Z.leb_spec (h + 1) (maxRequests options)).
    + rewrite (round_exact (h + 1)) in Hcount by (unfold Js.two53; lia).
      apply (admittedWith_sentDownstream options).
      rewrite (middleware_admits options c e kv (h + 1) e) by done.
      cbn [completion]. by rewrite round_exact by (unfold Js.two53; lia).
    + assert (Hblock : maxRequests options < Js.round (h + 1)).
      { destruct (Z.le_gt_cases (h + 1) Js.two53).
        - rewrite round_exact; lia.
        - pose proof (round_above (h + 1)). unfold Js.two53 in *. lia. }
      apply (rejectedUntil_answered429 options).
      by rewrite (middleware_blocks options c e kv _ e Hcount Hblock He).
  - apply (admittedWith_sentDownstream options).
    rewrite fresh_call; [| done | done |].
    + cbn [completion]. by rewrite round_exact by (unfold Js.two53; lia).
    + right. exists v, h, e. repeat split; try apply Hv; [done | lia].
Qed.

Lemma expiry_is_inclusive_witness :
  (if 2 + 1 <=? 2
   then sentDownstream (middleware twoPerMinute alice 60000 aliceFull) 2
          (2 - (2 + 1)) 60000
   else answered429 (middleware twoPerMinute alice 60000 aliceFull) 2 60000)
  /\ sentDownstream (middleware twoPerMinute alice (60000 + 1) aliceFull) 2
       (2 - 1) (60000 + 1 + 60000).
Proof.
  apply (expiry_is_inclusive twoPerMinute alice aliceFull
           (windowState (Js.Int 2) (Js.Num (Js.Int 60000))) 2 60000).
  - apply lookup_singleton_eq.
  - apply windowState_is.
  - lia.
  - simpl. lia.
  - simpl. lia.
  - unfold Js.valid_time, Js.max_time_value. simpl. lia.
  - unfold Js.valid_time, Js.max_time_value. simpl. lia.
Defined.

(** X4. Windows are counted independently.  A client that fills one window
    and starts again right after its expiry has all calls of both runs
    admitted, so up to twice maxRequests requests pass around an expiry
    however close together they are. *)
Theorem burst_across_expiry (options : ZebraOptions) (c : Hono.Context) (t1 : Z)
    (l1 : list (Hono.Context * Z)) (c2 : Hono.Context) (t2 : Z)
    (l2 : list (Hono.Context * Z)) (kv : DenoKv.Kv) :
  kv !! storageKey c = None ->
  Z.of_nat (S (length l1)) <= maxRequests options ->
  Z.of_nat (S (length l2)) <= maxRequests options ->
  Js.valid_time (t1 + windowMs options) ->
  Js.valid_time (t2 + windowMs options) ->
  t1 + windowMs options < t2 ->
  clientKey c2 = clientKey c ->
  Forall (fun call => clientKey call.1 = clientKey c
                      /\ call.2 <= t1 + windowMs options) l1 ->
  Forall (fun call => clientKey call.1 = clientKey c
                      /\ call.2 <= t2 + windowMs options) l2 ->
  admissions (serve options (((c, t1) :: l1) ++ ((c2, t2) :: l2)) kv).2 =
    Z.of_nat (S (length l1)) + Z.of_nat (S (length l2)).
Proof.
  intros Hkv Hn1 Hn2 He1 He2 Hgap Hc2 Hl1 Hl2. pose proof two53_pos as Htwo.
  rewrite serve_app. cbn [snd]. rewrite admissions_app.
  destruct (serve_fresh_admitted options c t1 l1 kv) as (_ & (v' & Hv' & Hst) & ->);
    [done | done | by left | done |].
  destruct (serve_fresh_admitted options c2 t2 l2 (serve options ((c, t1) :: l1) kv).1)
    as (_ & _ & ->); [done | done | | | lia].
  - right. rewrite (storageKey_of_clientKey _ _ Hc2).
    exists v'. eexists. eexists. split; [exact Hv' | split; [exact Hst | exact Hgap]].
  - eapply Forall_impl; [exact Hl2 |]. intros call [Hk Ht]. split; congruence.
Qed.

Lemma burst_across_expiry_witness :
  admissions
    (serve twoPerMinute
       ([(alice, 59998); (alice, 59999)] ++ [(alice, 119999); (aliceElsewhere, 120000)])
       ∅).2
  = 2 + 2.
Proof.
  apply (burst_across_expiry twoPerMinute alice 59998 [(alice, 59999)]
           alice 119999 [(aliceElsewhere, 120000)] ∅).
  - reflexivity.
  - simpl. lia.
  - simpl. lia.
  - unfold Js.valid_time, Js.max_time_value. simpl. lia.
  - unfold Js.valid_time, Js.max_time_value. simpl. lia.
  - simpl. lia.
  - reflexivity.
  - repeat constructor; simpl; lia.
  - repeat constructor; simpl; lia.
Defined.

(** ** A limit that admits nothing *)

(** X5. With maxRequests <= 0 a client without an entry never gets one:
    every call is answered 429 and nothing is written, so each call is
    judged as the first of a window of its own and the advertised reset
    time moves along with the clock. *)
Theorem nonpositive_limit_blocks (options : ZebraOptions)
    (calls : list (Hono.Context * Z)) (kv : DenoKv.Kv) :
  maxRequests options <= 0 ->
  Forall (fun call => kv !! storageKey call.1 = None
                      /\ Js.valid_time (call.2 + windowMs options)) calls ->
  (serve options calls kv).1 = kv
  /\ completion <$> (serve options calls kv).2 =
       (fun call => rejectedUntil options (call.2 + windowMs options)) <$> calls.
Proof.
  intros Hmax. induction 1 as [| [c t] rest [Hkv Ht] _ IH]; [done |].
  simpl in Hkv, Ht. rewrite serve_cons. cbn [fst snd]. rewrite !fmap_cons.
  rewrite (middleware_blocks options c t kv 1 (t + windowMs options)); [| | lia | done].
  - cbn [kv_after completion]. destruct IH as [-> ->]. done.
  - rewrite (get_absent _ _ Hkv), countHit_falsy by done.
    by rewrite valid_time_round.
Qed.

Lemma nonpositive_limit_blocks_witness :
  (serve zeroConfig [(alice, 7); (bob, 8); (alice, 9)] ∅).1 = ∅
  /\ completion <$> (serve zeroConfig [(alice, 7); (bob, 8); (alice, 9)] ∅).2 =
       [rejectedUntil zeroConfig 7; rejectedUntil zeroConfig 8;
        rejectedUntil zeroConfig 9].
Proof.
  apply (nonpositive_limit_blocks zeroConfig [(alice, 7); (bob, 8); (alice, 9)] ∅).
  - simpl. lia.
  - repeat constructor; unfold Js.valid_time, Js.max_time_value; simpl; lia.
Defined.

(** ** Entries that are not window states *)

Lemma unusable_expiry_step (options : ZebraOptions) (c : Hono.Context) (t : Z)
    (kv : DenoKv.Kv) (v : Js.Value) :
  kv !! storageKey c = Some v ->
  Js.truthy v = true ->
  Js.new_Date (Js.get v "expiresAt") = Js.NaN ->
  Js.gt (Js.Int t) (Js.to_number (Js.get v "expiresAt")) = false ->
  completion (middleware options c t kv) = Js.Throw (Js.RangeError "Invalid time value")
  /\ exists v', kv_after (middleware options c t kv) !! storageKey c = Some v'
                /\ Js.truthy v' = true
                /\ Js.get v' "expiresAt" = Js.get v "expiresAt".
Proof.
  intros Hkv Hv Hdate Hgt. unfold middleware, countHit, currentWindow.
  rewrite (get_present _ _ _ Hkv), Hv, Hgt. cbv beta iota zeta.
  rewrite Hdate. cbn [Js.toISOString].
  destruct (Js.gt (Js.incr (Js.get v "hits")) (Js.Int (maxRequests options)));
    cbn [completion kv_after].
  - split; [done |]. by exists v.
  - split; [done |]. eexists. unfold DenoKv.set. rewrite lookup_insert_eq. done.
Qed.

(** X6. An entry whose expiresAt cannot be printed as a date and is never
    overtaken by the clock (undefined, NaN, an object, or a number beyond
    the Date range) is never reset: every call for that key throws a
    RangeError, and the entry left behind is of the same kind. *)
Theorem unusable_expiry_always_throws (options : ZebraOptions) (key : DenoKv.Key)
    (calls : list (Hono.Context * Z)) (kv : DenoKv.Kv) (v : Js.Value) :
  kv !! key = Some v ->
  Js.truthy v = true ->
  Js.new_Date (Js.get v "expiresAt") = Js.NaN ->
  Forall (fun call =>
            storageKey call.1 = key
            /\ Js.gt (Js.Int call.2) (Js.to_number (Js.get v "expiresAt")) = false)
         calls ->
  Forall (fun o => completion o = Js.Throw (Js.RangeError "Invalid time value"))
         (serve options calls kv).2
  /\ exists v', (serve options calls kv).1 !! key = Some v'
                /\ Js.truthy v' = true
                /\ Js.get v' "expiresAt" = Js.get v "expiresAt".
Proof.
  intros Hkv Hv Hdate Hcalls. revert kv v Hkv Hv Hdate Hcalls.
  induction calls as [| [c t] rest IH]; intros kv v Hkv Hv Hdate Hcalls.
  - simpl. split; [constructor |]. by exists v.
  - apply Forall_cons in Hcalls as [[Hkey Hgt] Hrest]. simpl in Hkey, Hgt.
    rewrite serve_cons. cbn [fst snd]. subst key.
    destruct (unusable_expiry_step options c t kv v Hkv Hv Hdate Hgt)
      as (Hthrow & v1 & Hkv1 & Hv1 & Hea).
    destruct (IH _ v1 Hkv1 Hv1) as (Hall & v' & Hv' & Htr & Hea').
    + by rewrite Hea.
    + eapply Forall_impl; [exact Hrest |]. intros call [? ?]. by rewrite Hea.
    + split; [by constructor |]. exists v'. repeat split; [done | done | congruence].
Qed.

Lemma unusable_expiry_always_throws_witness :
  Forall (fun o => completion o = Js.Throw (Js.RangeError "Invalid time value"))
         (serve twoPerMinute [(alice, 20); (alice, 70000); (alice, 9000000)]
            aliceCorrupt).2
  /\ exists v',
       (serve twoPerMinute [(alice, 20); (alice, 70000); (alice, 9000000)]
          aliceCorrupt).1 !! storageKey alice = Some v'
       /\ Js.truthy v' = true
       /\ Js.get v' "expiresAt" = Js.get (Js.Object []) "expiresAt".
Proof.
  apply (unusable_expiry_always_throws twoPerMinute (storageKey alice)
           [(alice, 20); (alice, 70000); (alice, 9000000)] aliceCorrupt (Js.Object [])).
  - apply lookup_singleton_eq.
  - reflexivity.
  - reflexivity.
  - repeat constructor.
Defined.

Lemma missing_count_step (options : ZebraOptions) (c : Hono.Context) (t e : Z)
    (kv : DenoKv.Kv) (v : Js.Value) :
  Js.valid_time e ->
  kv !! storageKey c = Some v ->
  Js.to_number (Js.get v "hits") = Js.NaN ->
  Js.get v "expiresAt" = Js.Num (Js.Int e) ->
  t <= e ->
  middleware options c t kv =
    {| kv_after := <[storageKey c := windowState Js.NaN (Js.Num (Js.Int e))]> kv;
       ops := [DenoKv.Get (storageKey c);
               DenoKv.Set_ (storageKey c) (windowState Js.NaN (Js.Num (Js.Int e))) None];
       completion :=
         Js.Normal (Hono.Next
           (rateLimitHeaders (maxRequests options)
              (Js.NumberToString Js.NaN) (Js.IsoString e))) |}.
Proof.
  intros He Hkv Hhits Hea Ht.
  assert (Hv : Js.truthy v = true)
    by (destruct v; simpl in Hea; try discriminate; done).
  unfold middleware, countHit, currentWindow, Js.incr.
  rewrite (get_present _ _ _ Hkv), Hv, Hea. cbn [Js.to_number Js.gt].
  destruct (Z.ltb_spec e t); [lia |]. cbv beta iota zeta.
  rewrite Hhits. cbn [Js.add Js.gt].
  by rewrite new_Date_valid by done.
Qed.

(** X7. An entry with a usable expiry but without a numeric count switches
    the limit off until that expiry: every call for the key is handed
    downstream, whatever their number, with "NaN" as the remaining count. *)
Theorem missing_count_never_blocks (options : ZebraOptions) (key : DenoKv.Key)
    (e : Z) (calls : list (Hono.Context * Z)) (kv : DenoKv.Kv) (v : Js.Value) :
  Js.valid_time e ->
  kv !! key = Some v ->
  Js.to_number (Js.get v "hits") = Js.NaN ->
  Js.get v "expiresAt" = Js.Num (Js.Int e) ->
  Forall (fun call => storageKey call.1 = key /\ call.2 <= e) calls ->
  Forall (fun o =>
            completion o =
              Js.Normal (Hono.Next
                (rateLimitHeaders (maxRequests options)
                   (Js.NumberToString Js.NaN) (Js.IsoString e))))
         (serve options calls kv).2.
Proof.
  intros He Hkv Hhits Hea Hcalls. revert kv v Hkv Hhits Hea Hcalls.
  induction calls as [| [c t] rest IH]; intros kv v Hkv Hhits Hea Hcalls.
  - constructor.
  - apply Forall_cons in Hcalls as [[Hkey Ht] Hrest]. simpl in Hkey, Ht. subst key.
    rewrite serve_cons. cbn [snd].
    rewrite (missing_count_step options c t e kv v He Hkv Hhits Hea Ht).
    cbn [kv_after]. constructor; [done |].
    apply (IH _ (windowState Js.NaN (Js.Num (Js.Int e))));
      [apply lookup_insert_eq | done | done | done].
Qed.

Lemma missing_count_never_blocks_witness :
  Forall (fun o =>
            completion o =
              Js.Normal (Hono.Next
                (rateLimitHeaders 2 (Js.NumberToString Js.NaN) (Js.IsoString 60000))))
         (serve twoPerMinute [(alice, 1); (alice, 2); (alice, 3); (alice, 4)]
            aliceNoHits).2.
Proof.
  apply (missing_count_never_blocks twoPerMinute (storageKey alice) 60000
           [(alice, 1); (alice, 2); (alice, 3); (alice, 4)] aliceNoHits
           (Js.Object [("expiresAt", Js.Num (Js.Int 60000))])).
  - unfold Js.valid_time, Js.max_time_value. simpl. lia.
  - apply lookup_singleton_eq.
  - reflexivity.
  - reflexivity.
  - repeat constructor; simpl; lia.
Defined.

(** ** What the store accumulates *)

(** X8. The middleware never removes an entry, and the only keys it ever
    adds are the storage keys of the calls it served: the store grows by at
    most one entry per distinct client key and is never cleaned up. *)
Theorem entries_are_never_removed (options : ZebraOptions)
    (calls : list (Hono.Context * Z)) (kv : DenoKv.Kv) (k : DenoKv.Key) :
  (is_Some (kv !! k) -> is_Some ((serve options calls kv).1 !! k))
  /\ (is_Some ((serve options calls kv).1 !! k) ->
      is_Some (kv !! k) \/ Exists (fun call => storageKey call.1 = k) calls).
Proof.
  revert kv. induction calls as [| [c t] rest IH]; intros kv.
  - simpl. split; [done | by left].
  - rewrite serve_cons. cbn [fst].
    destruct (IH (kv_after (middleware options c t kv))) as [IHkeep IHnew].
    destruct (middleware_effects options c t kv) as [_ Hkv].
    destruct (decide (k = storageKey c)) as [-> | Hne].
    + split; [| intros _; right; by constructor].
      intros Hsome. apply IHkeep. rewrite Hkv.
      destruct (blocked options c t kv); [done |].
      rewrite lookup_insert_eq. eauto.
    + assert (Hsame : kv_after (middleware options c t kv) !! k = kv !! k)
        by (by apply middleware_frame).
      rewrite Hsame in IHkeep, IHnew. split; [done |].
      intros Hsome. destruct (IHnew Hsome) as [? | ?]; [by left |].
      right. by apply Exists_cons_tl.
Qed.

Lemma entries_are_never_removed_witness :
  is_Some ((serve twoPerMinute [(bob, 5); (alice, 61000); (bob, 70000)] aliceFull).1
             !! storageKey alice).
Proof.
  apply (entries_are_never_removed twoPerMinute
           [(bob, 5); (alice, 61000); (bob, 70000)] aliceFull (storageKey alice)).
  unfold aliceFull. rewrite lookup_singleton_eq. eauto.
Defined.

(** ** Responses *)

(** X9. A request that is handed downstream never advertises a negative
    number of remaining requests: X-RateLimit-Remaining is the decimal form
    of a number that is either at least 0 or NaN, and X-RateLimit-Limit is
    maxRequests. *)
Theorem admitted_remaining_not_negative (options : ZebraOptions)
    (c : Hono.Context) (t : Z) (kv : DenoKv.Kv) (headers : Hono.Headers) :
  completion (middleware options c t kv) = Js.Normal (Hono.Next headers) ->
  headers !! "X-RateLimit-Limit"
    = Some (Js.NumberToString (Js.Int (maxRequests options)))
  /\ exists r, headers !! "X-RateLimit-Remaining" = Some (Js.NumberToString r)
               /\ forall k, r = Js.Int k -> 0 <= k.
Proof.
  unfold middleware. destruct (countHit _ _ _) as [hits expiresAt].
  destruct (Js.gt hits (Js.Int (maxRequests options))) eqn:Hgt;
    destruct (Js.toISOString _); cbn [completion]; try discriminate.
  intros [= <-].
  destruct (rateLimitHeaders_lookup (maxRequests options)
              (Js.NumberToString (Js.sub (Js.Int (maxRequests options)) hits)) a)
    as (Hl & Hr & _).
  split; [exact Hl |]. eexists. split; [exact Hr |].
  intros k Hk. destruct hits as [n |]; [| discriminate Hk].
  cbn [Js.gt Js.sub] in Hgt, Hk. injection Hk as <-.
  apply round_nonneg.
  destruct (Z.ltb_spec (maxRequests options) n); [discriminate | lia].
Qed.

Lemma admitted_remaining_not_negative_witness :
  rateLimitHeaders 2 (Js.NumberToString (Js.Int 0)) (Js.IsoString 60000)
    !! "X-RateLimit-Limit" = Some (Js.NumberToString (Js.Int 2))
  /\ exists r,
       rateLimitHeaders 2 (Js.NumberToString (Js.Int 0)) (Js.IsoString 60000)
         !! "X-RateLimit-Remaining" = Some (Js.NumberToString r)
       /\ forall k, r = Js.Int k -> 0 <= k.
Proof.
  apply (admitted_remaining_not_negative twoPerMinute alice 10
           {[ storageKey alice := windowState (Js.Int 1) (Js.Num (Js.Int 60000)) ]}).
  reflexivity.
Defined.

(** X10. A 429 never points into the past.  With a positive limit and an
    entry that is absent or a window state, a rejected call is answered
    with status 429, X-RateLimit-Remaining "0" and an X-RateLimit-Reset that
    is not before the time of the call. *)
Theorem rejected_reset_not_past (options : ZebraOptions) (c : Hono.Context)
    (t : Z) (kv : DenoKv.Kv) (body : string) (status : Z)
    (headers : Hono.Headers) :
  1 <= maxRequests options ->
  (kv !! storageKey c = None
   \/ exists v h e, kv !! storageKey c = Some v /\ isWindowState v h e) ->
  completion (middleware options c t kv)
    = Js.Normal (Hono.TextResponse body status headers) ->
  status = 429
  /\ headers !! "X-RateLimit-Remaining" = Some (Js.Literal "0")
  /\ exists e, headers !! "X-RateLimit-Reset" = Some (Js.IsoString e) /\ t <= e.
Proof.
  intros Hmax Hentry.
  assert (Hcount : exists n e,
            countHit (windowMs options) (DenoKv.get kv (storageKey c)) t
            = (Js.Int n, Js.Num (Js.Int e)) /\ (n = 1 \/ t <= e)).
  { destruct Hentry as [Hkv | (v & h & e & Hkv & Hv)].
    - rewrite (get_absent _ _ Hkv). exists 1, (Js.round (t + windowMs options)).
      split; [by apply countHit_falsy | by left].
    - rewrite (get_present _ _ _ Hkv).
      destruct (Z.le_gt_cases t e) as [Hlive | Hexp].
      + exists (Js.round (h + 1)), e. split; [by apply countHit_live | by right].
      + exists 1, (Js.round (t + windowMs options)).
        split; [by eapply countHit_expired | by left]. }
  destruct Hcount as (n & e & Hcount & Hn).
  unfold middleware. rewrite Hcount. cbn [Js.gt].
  destruct (Z.ltb_spec (maxRequests options) n) as [Hover | Hfits].
  - unfold Js.new_Date, Js.TimeClip. cbn [Js.to_number].
    destruct (Z.abs e <=? Js.max_time_value); cbn [Js.toISOString completion];
      [| discriminate].
    intros [= <- <- <-].
    destruct (rateLimitHeaders_lookup (maxRequests options) (Js.Literal "0")
                (Js.IsoString e)) as (_ & Hr & Hreset).
    split; [done |]. split; [exact Hr |]. exists e. split; [exact Hreset | lia].
  - destruct (Js.toISOString _); cbn [completion]; discriminate.
Qed.

Lemma rejected_reset_not_past_witness :
  429 = 429
  /\ rateLimitHeaders 2 (Js.Literal "0") (Js.IsoString 60000)
       !! "X-RateLimit-Remaining" = Some (Js.Literal "0")
  /\ exists e,
       rateLimitHeaders 2 (Js.Literal "0") (Js.IsoString 60000)
         !! "X-RateLimit-Reset" = Some (Js.IsoString e)
       /\ 20 <= e.
Proof.
  apply (rejected_reset_not_past twoPerMinute alice 20 aliceFull "Too Many Requests").
  - simpl. lia.
  - right. exists (windowState (Js.Int 2) (Js.Num (Js.Int 60000))), 2, 60000.
    split; [apply lookup_singleton_eq | apply windowState_is].
  - reflexivity.
Defined.

(** ** Stores of window states *)

Lemma well_formed_step (options : ZebraOptions) (c : Hono.Context) (t : Z)
    (kv : DenoKv.Kv) :
  wellFormed kv ->
  Js.valid_time (t + windowMs options) ->
  wellFormed (kv_after (middleware options c t kv))
  /\ (admitted (middleware options c t kv) \/ rejected (middleware options c t kv)).
Proof.
  intros Hwf Ht.
  assert (Hcount : exists n e,
            countHit (windowMs options) (DenoKv.get kv (storageKey c)) t
            = (Js.Int n, Js.Num (Js.Int e)) /\ Js.valid_time e).
  { destruct (kv !! storageKey c) as [v |] eqn:Hkv.
    - destruct (Hwf _ _ (storageKey_rateLimitKey c) Hkv) as (h & e & Hv & He).
      rewrite (get_present _ _ _ Hkv).
      destruct (Z.le_gt_cases t e) as [Hlive | Hexp].
      + exists (Js.round (h + 1)), e. split; [by apply countHit_live | done].
      + exists 1, (t + windowMs options).
        split; [| done]. rewrite <- (valid_time_round _ Ht).
        by eapply countHit_expired.
    - rewrite (get_absent _ _ Hkv).
      exists 1, (t + windowMs options).
      split; [| done]. rewrite <- (valid_time_round _ Ht).
      by apply countHit_falsy. }
  destruct Hcount as (n & e & Hcount & He).
  destruct (Z.le_gt_cases n (maxRequests options)) as [Hfits | Hover].
  - rewrite (middleware_admits options c t kv n e Hcount Hfits He).
    cbn [kv_after]. split.
    + intros k v Hk Hlook.
      destruct (decide (k = storageKey c)) as [-> | Hne].
      * rewrite lookup_insert_eq in Hlook. injection Hlook as <-.
        exists n, e. split; [apply windowState_is | done].
      * rewrite lookup_insert_ne in Hlook by congruence. by eapply Hwf.
    + left. unfold admitted, admittedWith. cbn [completion]. eauto.
  - rewrite (middleware_blocks options c t kv n e Hcount Hover He).
    cbn [kv_after]. split; [done |].
    right. unfold rejected, rejectedUntil. cbn [completion]. eauto.
Qed.

Lemma serveWith_cons options c t faults rest kv :
  serveWith options ((c, t, faults) :: rest) kv =
    ((serveWith options rest (kv_after (middlewareWith faults options c t kv))).1,
     middlewareWith faults options c t kv
       :: (serveWith options rest (kv_after (middlewareWith faults options c t kv))).2).
Proof. simpl. by destruct (serveWith options rest _). Qed.

(** With rejecting store operations a call either ends as it would without
    them, leaving the same store, or throws what one of them rejected with,
    leaving the store as it was. *)
Lemma middlewareWith_cases (faults : DenoKv.Faults) (options : ZebraOptions)
    (c : Hono.Context) (t : Z) (kv : DenoKv.Kv) :
  middlewareWith faults options c t kv = middleware options c t kv
  \/ exists e, completion (middlewareWith faults options c t kv) = Js.Throw e
                /\ DenoKv.rejectsWith faults e
                /\ kv_after (middlewareWith faults options c t kv) = kv.
Proof.
  unfold middlewareWith, DenoKv.rejectsWith.
  destruct (DenoKv.on_openKv faults) as [e |]; [right; eauto |].
  destruct (DenoKv.on_get faults) as [e |]; [right; eauto 6 |].
  destruct (countHit _ _ _) as [hits expiresAt].
  destruct (Js.gt hits _); [by left |].
  destruct (DenoKv.on_set faults) as [e |]; [right; eauto 7 | by left].
Qed.

(** X11. As long as every rate-limit entry is a window state with a valid
    expiry, and the clock plus windowMs stays a valid time value, the only
    thing a call can throw is what one of its store operations
    (Deno.openKv, kv.get, kv.set) rejected with: every other call is either
    handed downstream or answered by the middleware itself, and the store
    keeps that shape. *)
Theorem only_store_rejections_throw (options : ZebraOptions)
    (calls : list (Hono.Context * Z * DenoKv.Faults)) (kv : DenoKv.Kv) :
  wellFormed kv ->
  Forall (fun call => Js.valid_time (call.1.2 + windowMs options)) calls ->
  wellFormed (serveWith options calls kv).1
  /\ Forall2 (fun call o =>
                admitted o \/ rejected o
                \/ exists e, completion o = Js.Throw e
                              /\ DenoKv.rejectsWith call.2 e)
       calls (serveWith options calls kv).2.
Proof.
  intros Hwf Hcalls. revert kv Hwf.
  induction Hcalls as [| [[c t] faults] rest Ht _ IH]; intros kv Hwf.
  - split; [done | constructor].
  - rewrite serveWith_cons. cbn [fst snd]. simpl in Ht.
    destruct (middlewareWith_cases faults options c t kv)
      as [-> | (e & Hthrow & Hrej & ->)].
    + destruct (well_formed_step options c t kv Hwf Ht) as [Hwf' Hout].
      destruct (IH _ Hwf') as [Hfinal Houts].
      split; [done |]. constructor; [| done]. tauto.
    + destruct (IH _ Hwf) as [Hfinal Houts].
      split; [done |]. constructor; [| done]. right. right. eauto.
Qed.

Lemma only_store_rejections_throw_witness :
  wellFormed
    (serveWith twoPerMinute
       [(alice, 20, DenoKv.healthy); (bob, 30, kvUnreachable);
        (alice, 61000, DenoKv.healthy)] aliceFull).1
  /\ Forall2 (fun call o =>
                admitted o \/ rejected o
                \/ exists e, completion o = Js.Throw e
                              /\ DenoKv.rejectsWith call.2 e)
       [(alice, 20, DenoKv.healthy); (bob, 30, kvUnreachable);
        (alice, 61000, DenoKv.healthy)]
       (serveWith twoPerMinute
          [(alice, 20, DenoKv.healthy); (bob, 30, kvUnreachable);
           (alice, 61000, DenoKv.healthy)] aliceFull).2.
Proof.
  apply (only_store_rejections_throw twoPerMinute
           [(alice, 20, DenoKv.healthy); (bob, 30, kvUnreachable);
            (alice, 61000, DenoKv.healthy)] aliceFull).
  - intros k v _ Hlook. unfold aliceFull in Hlook.
    apply lookup_singleton_Some in Hlook as [_ <-].
    exists 2, 60000. split; [apply windowState_is |].
    unfold Js.valid_time, Js.max_time_value. simpl. lia.
  - repeat constructor; unfold Js.valid_time, Js.max_time_value; simpl; lia.
Defined.

Example unreachable_store :
  completion <$>
    (serveWith twoPerMinute
       [(alice, 20, DenoKv.healthy); (bob, 30, kvUnreachable);
        (alice, 61000, DenoKv.healthy)] aliceFull).2
  = [rejectedUntil twoPerMinute 60000;
     Js.Throw (Js.StoreError "unavailable");
     admittedWith twoPerMinute 1 121000].
Proof. vm_compute. reflexivity. Qed.

(** ** Who is who *)

Lemma or_else_nonempty (s : string) (b : option string) :
  s <> "" -> Js.or_else (Some s) b = Some s.
Proof. intros Hs. unfold Js.or_else. by apply String.eqb_neq in Hs as ->. Qed.

Lemma or_else_missing (a b : option string) :
  a = None \/ a = Some "" -> Js.or_else a b = b.
Proof. by intros [-> | ->]. Qed.

(** X12. Where the client key comes from.  A non-empty x-real-ip header
    decides the storage key; failing that (header missing or empty), a
    non-empty x-forwarded-for header does; failing both, the remote address
    does, and a missing remote address is spelled "undefined". *)
Theorem client_key_precedence (c : Hono.Context) :
  (forall s, Hono.header c "x-real-ip" = Some s -> s <> "" ->
             storageKey c = ["rate-limit:" +:+ s])
  /\ (forall s,
        Hono.header c "x-real-ip" = None \/ Hono.header c "x-real-ip" = Some "" ->
        Hono.header c "x-forwarded-for" = Some s -> s <> "" ->
        storageKey c = ["rate-limit:" +:+ s])
  /\ (Hono.header c "x-real-ip" = None \/ Hono.header c "x-real-ip" = Some "" ->
      Hono.header c "x-forwarded-for" = None
        \/ Hono.header c "x-forwarded-for" = Some "" ->
      storageKey c = ["rate-limit:" +:+ default "undefined" (Hono.remote_address c)]).
Proof.
  unfold storageKey, clientKey, clientIp, keyPrefix. split; [| split].
  - intros s Hreal Hs. rewrite Hreal. by rewrite !or_else_nonempty.
  - intros s Hreal Hfwd Hs. rewrite (or_else_missing _ _ Hreal), Hfwd.
    by rewrite or_else_nonempty.
  - intros Hreal Hfwd.
    rewrite (or_else_missing _ _ Hreal), (or_else_missing _ _ Hfwd).
    by destruct (Hono.remote_address c).
Qed.

Lemma client_key_precedence_witness :
  storageKey alice = ["rate-limit:" +:+ "10.0.0.1"]
  /\ storageKey bob = ["rate-limit:" +:+ default "undefined" (Hono.remote_address bob)].
Proof.
  split.
  - apply (proj1 (client_key_precedence alice)); [reflexivity | discriminate].
  - apply (proj2 (proj2 (client_key_precedence bob))); left; reflexivity.
Defined.

(** X13. Two requests carrying the same non-empty x-real-ip header are the
    same client to the limiter, whatever their remote addresses and other
    headers: served at the same time on the same store they have the same
    outcome, so they draw on one counter. *)
Theorem real_ip_shares_counter (options : ZebraOptions) (c c' : Hono.Context)
    (s : string) (t : Z) (kv : DenoKv.Kv) :
  s <> "" ->
  Hono.header c "x-real-ip" = Some s ->
  Hono.header c' "x-real-ip" = Some s ->
  middleware options c t kv = middleware options c' t kv.
Proof.
  intros Hs Hc Hc'.
  assert (Hkey : storageKey c = storageKey c').
  { unfold storageKey, clientKey, clientIp. rewrite Hc, Hc'.
    by rewrite !or_else_nonempty. }
  unfold middleware. by rewrite Hkey.
Qed.

Lemma real_ip_shares_counter_witness :
  middleware twoPerMinute alice 20 aliceFull
  = middleware twoPerMinute aliceElsewhere 20 aliceFull.
Proof.
  apply (real_ip_shares_counter twoPerMinute alice aliceElsewhere "10.0.0.1").
  - discriminate.
  - reflexivity.
  - reflexivity.
Defined.

(** ** Clients in a shared run *)

Lemma serve_same_entry (options : ZebraOptions) (key : DenoKv.Key)
    (calls : list (Hono.Context * Z)) :
  forall kv kv' : DenoKv.Kv,
    kv !! key = kv' !! key ->
    responsesTo key calls (serve options calls kv).2 =
      completion <$> (serve options (callsOf key calls) kv').2.
Proof.
  unfold responsesTo, callsOf.
  induction calls as [| [c t] rest IH]; intros kv kv' Heq; [done |].
  rewrite serve_cons. cbn [snd zip zip_with].
  destruct (decide (storageKey c = key)) as [Hkey | Hne].
  - rewrite !filter_cons_True by done. rewrite serve_cons. cbn [snd].
    rewrite !fmap_cons. cbn [snd]. subst key.
    destruct (middleware_local options c t kv kv' Heq) as (Hc & _ & Hafter).
    f_equal; [exact Hc |]. by apply IH.
  - rewrite !filter_cons_False by done. apply IH.
    rewrite middleware_frame by congruence. done.
Qed.

(** X14. Sharing the limiter changes nothing for a client.  In a run that
    mixes the calls of many clients in any order, the responses to the calls
    of one storage key are exactly those the same calls would get if they
    were the only ones served. *)
Theorem served_together_as_alone (options : ZebraOptions) (key : DenoKv.Key)
    (calls : list (Hono.Context * Z)) (kv : DenoKv.Kv) :
  responsesTo key calls (serve options calls kv).2 =
    completion <$> (serve options (callsOf key calls) kv).2.
Proof. by apply serve_same_entry. Qed.

Example shared_run :
  responsesTo (storageKey alice)
    [(alice, 0); (bob, 1); (alice, 2); (bob, 3); (alice, 4)]
    (serve twoPerMinute
       [(alice, 0); (bob, 1); (alice, 2); (bob, 3); (alice, 4)] ∅).2
  = [admittedWith twoPerMinute 1 60000;
     admittedWith twoPerMinute 0 60000;
     rejectedUntil twoPerMinute 60000].
Proof. vm_compute. reflexivity. Qed.
